(** * bci_build.package: container image descriptors, their validation,
      their build tags and the files they are written to.

    A shallow embedding of [src/bci_build/package/__init__.py].  Python
    strings are [string]s (of bytes), lists are [list]s, [Optional] is
    [option], a raised exception is the [Raise] case of [result], and the
    destination folder is a finite map from the files that exist to their
    contents, a path naming the file it resolves to. *)

From Stdlib Require Import ZArith String Ascii DecimalString.
From stdpp Require Import gmap strings list.

Local Open Scope string_scope.
Local Open Scope list_scope.

(** ** Python-level helpers *)

(** The exceptions the module raises. *)
Inductive PyError :=
| ValueError (msg : string)
| AssertionError (msg : string)
| IndexError (msg : string)
| OSError (msg : string).

Inductive result (A : Type) :=
| Ok (a : A)
| Raise (e : PyError).
Arguments Ok {A} a.
Arguments Raise {A} e.

(** Sequencing: an exception raised by [r] propagates. *)
#[global] Instance result_bind : MBind result := λ A B k r,
  match r with
  | Ok a => k a
  | Raise e => Raise e
  end.

#[global] Instance result_ret : MRet result := λ A a, Ok a.

(** Truth value of a [str] and of an [Optional[str]]. *)
Definition truthy (s : string) : bool :=
  match s with
  | EmptyString => false
  | String _ _ => true
  end.

Definition truthy_opt (o : option string) : bool :=
  match o with
  | None => false
  | Some s => truthy s
  end.

(** [sep.join(l)] is [String.concat sep l] of the standard library. *)

(** [str(z)] for an [int]. *)
Definition str_int (z : Z) : string :=
  NilZero.string_of_int (Z.to_int z).

(** [sub in s] for two strings. *)
Fixpoint str_contains (sub s : string) : bool :=
  String.prefix sub s ||
  match s with
  | EmptyString => false
  | String _ s' => str_contains sub s'
  end.

Definition ascii_upper (c : ascii) : ascii :=
  let n := nat_of_ascii c in
  if (97 <=? n)%nat && (n <=? 122)%nat then ascii_of_nat (n - 32) else c.

Definition ascii_lower (c : ascii) : ascii :=
  let n := nat_of_ascii c in
  if (65 <=? n)%nat && (n <=? 90)%nat then ascii_of_nat (n + 32) else c.

Fixpoint str_lower (s : string) : string :=
  match s with
  | EmptyString => EmptyString
  | String c s' => String (ascii_lower c) (str_lower s')
  end.

(** [s.capitalize()] as it is on ASCII text.  The built-in itself, which
    follows the Unicode case tables, is a parameter of the code that calls
    it; this is what it does when the text is ASCII. *)
Definition capitalize_ascii (s : string) : string :=
  match s with
  | EmptyString => EmptyString
  | String c s' => String (ascii_upper c) (str_lower s')
  end.

(** The last character of a string, [s[-1]]. *)
Fixpoint last_char (s : string) : option ascii :=
  match s with
  | EmptyString => None
  | String c EmptyString => Some c
  | String _ s' => last_char s'
  end.

Definition nl : string := String "010"%char EmptyString.
Definition dq : string := String "034"%char EmptyString.

(** [os.path.join(dest, fname)] on POSIX. *)
Definition os_path_join (dest fname : string) : string :=
  if String.prefix "/" fname then fname
  else if negb (truthy dest) then fname
  else if bool_decide (last_char dest = Some "/"%char) then dest +:+ fname
  else dest +:+ "/" +:+ fname.

(** ** Enumerations *)

Inductive Arch := X86_64 | AARCH64 | PPC64LE | S390X | LOCAL.

Definition Arch_str (a : Arch) : string :=
  match a with
  | X86_64 => "x86_64"
  | AARCH64 => "aarch64"
  | PPC64LE => "ppc64le"
  | S390X => "s390x"
  | LOCAL => "local"
  end.

Definition Arch_member (a : Arch) : string :=
  match a with
  | X86_64 => "X86_64"
  | AARCH64 => "AARCH64"
  | PPC64LE => "PPC64LE"
  | S390X => "S390X"
  | LOCAL => "LOCAL"
  end.

(** [repr] of an enum member, [<Arch.LOCAL: 'local'>]. *)
Definition Arch_repr (a : Arch) : string :=
  "<Arch." +:+ Arch_member a +:+ ": '" +:+ Arch_str a +:+ "'>".

Definition Arch_eqb (a b : Arch) : bool :=
  match a, b with
  | X86_64, X86_64 | AARCH64, AARCH64 | PPC64LE, PPC64LE
  | S390X, S390X | LOCAL, LOCAL => true
  | _, _ => false
  end.

Inductive BuildType := DOCKER | KIWI.

Inductive PackageType := DELETE | UNINSTALL | BOOTSTRAP | IMAGE.

Definition PackageType_str (t : PackageType) : string :=
  match t with
  | DELETE => "delete"
  | UNINSTALL => "uninstall"
  | BOOTSTRAP => "bootstrap"
  | IMAGE => "image"
  end.

Definition PackageType_eqb (a b : PackageType) : bool :=
  match a, b with
  | DELETE, DELETE | UNINSTALL, UNINSTALL
  | BOOTSTRAP, BOOTSTRAP | IMAGE, IMAGE => true
  | _, _ => false
  end.

Inductive OsVersion := SP6 | SP5 | SP4 | SP3 | TUMBLEWEED | BASALT.

Definition OsVersion_eqb (a b : OsVersion) : bool :=
  match a, b with
  | SP6, SP6 | SP5, SP5 | SP4, SP4 | SP3, SP3
  | TUMBLEWEED, TUMBLEWEED | BASALT, BASALT => true
  | _, _ => false
  end.

Definition OsVersion_str (v : OsVersion) : string :=
  match v with
  | SP6 => "6"
  | SP5 => "5"
  | SP4 => "4"
  | SP3 => "3"
  | TUMBLEWEED => "Tumbleweed"
  | BASALT => "Basalt"
  end.

(** ** Packages *)

(** The dataclass [Package]; its field [name] is [pkg_name] here, the
    descriptor has a [name] of its own. *)
Record Package := {
  pkg_name : string;
  pkg_type : PackageType;
}.

(** An entry of [package_list]: a plain [str] or a [Package]. *)
Inductive PackageEntry :=
| PkgStr (s : string)
| PkgObj (p : Package).

(** [str(pkg)]. *)
Definition PackageEntry_str (e : PackageEntry) : string :=
  match e with
  | PkgStr s => s
  | PkgObj p => pkg_name p
  end.

(** ** Vendor properties *)

Definition _build_tag_prefix (os_version : OsVersion) : string :=
  if OsVersion_eqb os_version TUMBLEWEED then "opensuse/bci"
  else if OsVersion_eqb os_version BASALT then "alp/bci"
  else if OsVersion_eqb os_version SP3 then "suse/ltss/sle15.3"
  else "bci".

Module ImageProperties.
Record t := {
  maintainer : string;
  vendor : string;
  distribution_base_name : string;
  registry : string;
  url : string;
  eula : string;
  lifecycle_url : string;
  label_prefix : string;
  build_tag_prefix : string;
  application_container_build_tag_prefix : string;
  based_on_container_description : option string;
}.
End ImageProperties.

Definition _OPENSUSE_IMAGE_PROPS : ImageProperties.t := {|
  ImageProperties.maintainer := "openSUSE (https://www.opensuse.org/)";
  ImageProperties.vendor := "openSUSE Project";
  ImageProperties.registry := "registry.opensuse.org";
  ImageProperties.url := "https://www.opensuse.org";
  ImageProperties.eula := "sle-bci";
  ImageProperties.lifecycle_url := "https://en.opensuse.org/Lifetime";
  ImageProperties.label_prefix := "org.opensuse";
  ImageProperties.distribution_base_name := "openSUSE Tumbleweed";
  ImageProperties.build_tag_prefix := _build_tag_prefix TUMBLEWEED;
  ImageProperties.application_container_build_tag_prefix := "opensuse";
  ImageProperties.based_on_container_description := None;
|}.

Definition _SLE_IMAGE_PROPS : ImageProperties.t := {|
  ImageProperties.maintainer := "SUSE LLC (https://www.suse.com/)";
  ImageProperties.vendor := "SUSE LLC";
  ImageProperties.registry := "registry.suse.com";
  ImageProperties.url := "https://www.suse.com/products/server/";
  ImageProperties.eula := "sle-bci";
  ImageProperties.lifecycle_url :=
    "https://www.suse.com/lifecycle#suse-linux-enterprise-server-15";
  ImageProperties.label_prefix := "com.suse";
  ImageProperties.distribution_base_name := "SLE";
  ImageProperties.build_tag_prefix := _build_tag_prefix SP5;
  ImageProperties.application_container_build_tag_prefix := "suse";
  ImageProperties.based_on_container_description := None;
|}.

Definition _SLE_15_SP3_LTSS_IMAGE_PROPS : ImageProperties.t := {|
  ImageProperties.maintainer := "SUSE LLC (https://www.suse.com/)";
  ImageProperties.vendor := "SUSE LLC";
  ImageProperties.registry := "registry.suse.com";
  ImageProperties.url := "https://www.suse.com/products/server/";
  ImageProperties.eula := "sle-eula";
  ImageProperties.lifecycle_url :=
    "https://www.suse.com/lifecycle#suse-linux-enterprise-server-15";
  ImageProperties.label_prefix := "com.suse";
  ImageProperties.distribution_base_name := "SLE LTSS";
  ImageProperties.build_tag_prefix := _build_tag_prefix SP3;
  ImageProperties.application_container_build_tag_prefix := "suse";
  ImageProperties.based_on_container_description := None;
|}.

Definition _BASALT_IMAGE_PROPS : ImageProperties.t := {|
  ImageProperties.maintainer := "SUSE LLC (https://www.suse.com/)";
  ImageProperties.vendor := "SUSE LLC";
  ImageProperties.registry := "registry.suse.com";
  ImageProperties.url := "https://susealp.io/";
  ImageProperties.eula := "sle-bci";
  ImageProperties.lifecycle_url := "https://www.suse.com/lifecycle";
  ImageProperties.label_prefix := "com.suse.basalt";
  ImageProperties.distribution_base_name := "Basalt Project";
  ImageProperties.build_tag_prefix := _build_tag_prefix BASALT;
  ImageProperties.application_container_build_tag_prefix := "suse";
  ImageProperties.based_on_container_description :=
    Some "based on the SUSE Adaptable Linux Platform (ALP)";
|}.

(** ** The descriptor *)

Module BaseContainerImage.

(** The fields of the dataclass that validation, the build tags, the
    reference and the set of written files read.  [extra_files] is a
    [dict], kept as the list of its items in insertion order. *)
Record t := {
  name : string;
  pretty_name : string;
  package_name : string;
  os_version : OsVersion;
  exclusive_arch : option (list Arch);
  is_latest : bool;
  package_list : list PackageEntry;
  custom_end : string;
  config_sh_script : string;
  config_sh_interpreter : string;
  maintainer : option string;
  extra_files : list (string * string);
  additional_names : list string;
  build_recipe_type : option BuildType;
  _image_properties : ImageProperties.t;
}.

Definition set_build_recipe_type (v : option BuildType) (self : t) : t :=
  {| name := name self; pretty_name := pretty_name self;
     package_name := package_name self; os_version := os_version self;
     exclusive_arch := exclusive_arch self; is_latest := is_latest self;
     package_list := package_list self; custom_end := custom_end self;
     config_sh_script := config_sh_script self;
     config_sh_interpreter := config_sh_interpreter self;
     maintainer := maintainer self; extra_files := extra_files self;
     additional_names := additional_names self;
     build_recipe_type := v;
     _image_properties := _image_properties self |}.

Definition set_image_properties (v : ImageProperties.t) (self : t) : t :=
  {| name := name self; pretty_name := pretty_name self;
     package_name := package_name self; os_version := os_version self;
     exclusive_arch := exclusive_arch self; is_latest := is_latest self;
     package_list := package_list self; custom_end := custom_end self;
     config_sh_script := config_sh_script self;
     config_sh_interpreter := config_sh_interpreter self;
     maintainer := maintainer self; extra_files := extra_files self;
     additional_names := additional_names self;
     build_recipe_type := build_recipe_type self;
     _image_properties := v |}.

Definition set_maintainer (v : option string) (self : t) : t :=
  {| name := name self; pretty_name := pretty_name self;
     package_name := package_name self; os_version := os_version self;
     exclusive_arch := exclusive_arch self; is_latest := is_latest self;
     package_list := package_list self; custom_end := custom_end self;
     config_sh_script := config_sh_script self;
     config_sh_interpreter := config_sh_interpreter self;
     maintainer := v; extra_files := extra_files self;
     additional_names := additional_names self;
     build_recipe_type := build_recipe_type self;
     _image_properties := _image_properties self |}.

Definition set_additional_names (v : list string) (self : t) : t :=
  {| name := name self; pretty_name := pretty_name self;
     package_name := package_name self; os_version := os_version self;
     exclusive_arch := exclusive_arch self; is_latest := is_latest self;
     package_list := package_list self; custom_end := custom_end self;
     config_sh_script := config_sh_script self;
     config_sh_interpreter := config_sh_interpreter self;
     maintainer := maintainer self; extra_files := extra_files self;
     additional_names := v;
     build_recipe_type := build_recipe_type self;
     _image_properties := _image_properties self |}.

Definition is_opensuse (self : t) : bool :=
  OsVersion_eqb (os_version self) TUMBLEWEED.

(** [self.exclusive_arch and Arch.LOCAL in self.exclusive_arch]. *)
Definition has_local_arch (self : t) : bool :=
  match exclusive_arch self with
  | None | Some [] => false
  | Some archs => existsb (Arch_eqb LOCAL) archs
  end.

(** [f"{self.exclusive_arch=}"]. *)
Definition exclusive_arch_debug (self : t) : string :=
  "self.exclusive_arch=" +:+
  match exclusive_arch self with
  | None => "None"
  | Some archs => "[" +:+ String.concat ", " (map Arch_repr archs) +:+ "]"
  end.

Definition __post_init__ (self : t) : result t :=
  if bool_decide (package_list self = []) then
    Raise (ValueError
             ("No packages were added to " +:+ pretty_name self +:+ "."))
  else if has_local_arch self then
    Raise (ValueError
             (Arch_str LOCAL +:+ " must not appear in "
                +:+ exclusive_arch_debug self))
  else if truthy (config_sh_script self) && truthy (custom_end self) then
    Raise (ValueError
      "Cannot specify both a custom_end and a config.sh script! Use just config_sh_script.")
  else
    let self :=
      match build_recipe_type self with
      | None =>
          set_build_recipe_type
            (Some (if OsVersion_eqb (os_version self) SP3
                   then KIWI else DOCKER)) self
      | Some _ => self
      end in
    let self :=
      if is_opensuse self then set_image_properties _OPENSUSE_IMAGE_PROPS self
      else if OsVersion_eqb (os_version self) BASALT
      then set_image_properties _BASALT_IMAGE_PROPS self
      else if OsVersion_eqb (os_version self) SP3
      then set_image_properties _SLE_15_SP3_LTSS_IMAGE_PROPS self
      else set_image_properties _SLE_IMAGE_PROPS self in
    let self :=
      if negb (truthy_opt (maintainer self))
      then set_maintainer
             (Some (ImageProperties.maintainer (_image_properties self))) self
      else self in
    Ok self.

Definition registry (self : t) : string :=
  ImageProperties.registry (_image_properties self).

Definition _registry_prefix (self : t) : string :=
  ImageProperties.build_tag_prefix (_image_properties self).

(** The first entry of [package_list] that is a [Package] of a type
    other than [IMAGE], where the loop of [packages] raises. *)
Fixpoint first_non_image (l : list PackageEntry) : option PackageType :=
  match l with
  | [] => None
  | PkgObj p :: rest =>
      if negb (PackageType_eqb (pkg_type p) IMAGE) then Some (pkg_type p)
      else first_non_image rest
  | PkgStr _ :: rest => first_non_image rest
  end.

Definition packages (self : t) : result string :=
  match first_non_image (package_list self) with
  | Some ty =>
      Raise (ValueError
               ("Cannot add a package of type " +:+ PackageType_str ty
                  +:+ " into a Dockerfile based build."))
  | None => Ok (String.concat " " (map PackageEntry_str (package_list self)))
  end.

End BaseContainerImage.

(** A text given line by line, every line ended by a newline. *)
Fixpoint text (lines : list string) : string :=
  match lines with
  | [] => ""
  | l :: rest => l +:+ nl +:+ text rest
  end.

Definition _BASH_SET : string := "set -euo pipefail".

(** The property [config_sh] of the base class; [year] is what
    [datetime.datetime.now().date().strftime] gives for the year. *)
Definition config_sh (year : string) (self : BaseContainerImage.t)
  : result string :=
  if negb (truthy (BaseContainerImage.config_sh_script self))
     && truthy (BaseContainerImage.custom_end self)
  then Raise (ValueError
    "This image cannot be build as a kiwi image, it has a `custom_end` set.")
  else Ok (text [
    "#!" +:+ BaseContainerImage.config_sh_interpreter self;
    "# SPDX-License-Identifier: MIT";
    "# SPDX-FileCopyrightText: (c) 2022-" +:+ year +:+ " SUSE LLC";
    "";
    _BASH_SET;
    "";
    "test -f /.kconfig && . /.kconfig";
    "test -f /.profile && . /.profile";
    "";
    "echo " +:+ dq +:+ "Configure image: [$kiwi_iname]..." +:+ dq;
    "";
    "#============================================";
    "# Import repositories' keys if rpm is present";
    "#--------------------------------------------";
    "if command -v rpm > /dev/null; then";
    "    suseImportBuildKey";
    "fi";
    "";
    BaseContainerImage.config_sh_script self;
    "";
    "#=======================================";
    "# Clean up after zypper if it is present";
    "#---------------------------------------";
    "if command -v zypper > /dev/null; then";
    "    zypper -n clean";
    "fi";
    "";
    "rm -rf /var/log/zypp";
    "";
    "exit 0" ]).

(** ** Language and application stack containers *)

Module LanguageStackContainer.

(** [version: Union[str, int]]. *)
Inductive Version :=
| VerStr (s : string)
| VerInt (z : Z).

Definition Version_str (v : Version) : string :=
  match v with
  | VerStr s => s
  | VerInt z => str_int z
  end.

Definition Version_truthy (v : Version) : bool :=
  match v with
  | VerStr s => truthy s
  | VerInt z => negb (z =? 0)%Z
  end.

(** [ApplicationStackContainer] is the subclass that overrides
    [_registry_prefix]; it adds no field. *)
Inductive StackClass := LanguageStack | ApplicationStack.

Record t := {
  base : BaseContainerImage.t;
  stack_class : StackClass;
  version : Version;
  stability_tag : option string;
  additional_versions : list string;
  version_in_uid : bool;
}.

Definition set_base (b : BaseContainerImage.t) (self : t) : t :=
  {| base := b; stack_class := stack_class self; version := version self;
     stability_tag := stability_tag self;
     additional_versions := additional_versions self;
     version_in_uid := version_in_uid self |}.

Definition set_stability_tag (v : option string) (self : t) : t :=
  {| base := base self; stack_class := stack_class self;
     version := version self; stability_tag := v;
     additional_versions := additional_versions self;
     version_in_uid := version_in_uid self |}.

Definition set_additional_versions (v : list string) (self : t) : t :=
  {| base := base self; stack_class := stack_class self;
     version := version self; stability_tag := stability_tag self;
     additional_versions := v;
     version_in_uid := version_in_uid self |}.

Definition __post_init__ (self : t) : result t :=
  b ← BaseContainerImage.__post_init__ (base self);
  let self := set_base b self in
  if negb (Version_truthy (version self))
  then Raise (ValueError "A language stack container requires a version")
  else Ok self.

Definition name (self : t) : string := BaseContainerImage.name (base self).

Definition version_label (self : t) : string := Version_str (version self).

Definition registry (self : t) : string :=
  BaseContainerImage.registry (base self).

Definition _registry_prefix (self : t) : string :=
  match stack_class self with
  | LanguageStack => BaseContainerImage._registry_prefix (base self)
  | ApplicationStack =>
      ImageProperties.application_container_build_tag_prefix
        (BaseContainerImage._image_properties (base self))
  end.

Definition _STABILITY_TAG_ORDERING : list (option string) :=
  [None; Some "stable"; Some "oldstable"].

(** [tuple.index(x)], [None] where Python raises. *)
Fixpoint tuple_index (x : option string) (l : list (option string))
  : option nat :=
  match l with
  | [] => None
  | y :: rest =>
      if bool_decide (x = y) then Some 0
      else S <$> tuple_index x rest
  end.

Definition _stability_suffix (self : t) : string :=
  if truthy_opt (stability_tag self) then
    match tuple_index (stability_tag self) _STABILITY_TAG_ORDERING with
    | Some i => str_int (Z.of_nat i)
    | None => ""
    end
  else "".

Definition _release_suffix (self : t) : string :=
  if truthy (_stability_suffix self)
  then _stability_suffix self +:+ ".%RELEASE%"
  else "%RELEASE%".

Definition build_tags (self : t) : list string :=
  flat_map
    (λ name,
       let ver_labels := [version_label self] in
       let ver_labels :=
         if truthy_opt (stability_tag self)
         then [default "" (stability_tag self)] ++ ver_labels
         else ver_labels in
       flat_map
         (λ ver_label,
            [ _registry_prefix self +:+ "/" +:+ name +:+ ":" +:+ ver_label;
              _registry_prefix self +:+ "/" +:+ name +:+ ":" +:+ ver_label
                +:+ "-" +:+ _release_suffix self ])
         (ver_labels ++ additional_versions self)
       ++ (if BaseContainerImage.is_latest (base self)
           then [_registry_prefix self +:+ "/" +:+ name +:+ ":latest"]
           else []))
    ([name self] ++ BaseContainerImage.additional_names (base self)).

Definition reference (self : t) : string :=
  (registry self +:+ "/" +:+ _registry_prefix self +:+ "/" +:+ name self)
  +:+ (":" +:+ version_label self +:+ "-" +:+ _release_suffix self).

End LanguageStackContainer.

(** ** OS containers *)

Module OsContainer.

(** The class adds no field to the base class. *)
Definition t := BaseContainerImage.t.

Definition __post_init__ (self : t) : result t :=
  BaseContainerImage.__post_init__ self.

Definition version_label (self : t) : string :=
  "%OS_VERSION_ID_SP%.%RELEASE%".

Definition build_tags (self : t) : list string :=
  flat_map
    (λ name,
       [ BaseContainerImage._registry_prefix self +:+ "/bci-" +:+ name
           +:+ ":%OS_VERSION_ID_SP%";
         BaseContainerImage._registry_prefix self +:+ "/bci-" +:+ name
           +:+ ":" +:+ version_label self ]
       ++ (if BaseContainerImage.is_latest self
           then [BaseContainerImage._registry_prefix self +:+ "/bci-"
                   +:+ name +:+ ":latest"]
           else []))
    ([BaseContainerImage.name self]
       ++ BaseContainerImage.additional_names self).

Definition reference (self : t) : string :=
  BaseContainerImage.registry self +:+ "/"
    +:+ BaseContainerImage._registry_prefix self +:+ "/bci-"
    +:+ BaseContainerImage.name self +:+ ":" +:+ version_label self.

End OsContainer.

(** ** Any descriptor *)

(** A descriptor is an instance of one of the concrete classes. *)
Inductive Image :=
| Os (self : OsContainer.t)
| Stack (self : LanguageStackContainer.t).

Definition base_of (img : Image) : BaseContainerImage.t :=
  match img with
  | Os self => self
  | Stack self => LanguageStackContainer.base self
  end.

(** Construction: the generated [__init__] stores the arguments and calls
    the class's [__post_init__]. *)
Definition construct (img : Image) : result Image :=
  match img with
  | Os self => self' ← OsContainer.__post_init__ self; Ok (Os self')
  | Stack self =>
      self' ← LanguageStackContainer.__post_init__ self; Ok (Stack self')
  end.

Definition build_tags (img : Image) : list string :=
  match img with
  | Os self => OsContainer.build_tags self
  | Stack self => LanguageStackContainer.build_tags self
  end.

Definition reference (img : Image) : string :=
  match img with
  | Os self => OsContainer.reference self
  | Stack self => LanguageStackContainer.reference self
  end.

(** ** Writing the files *)

Section write_files.

(** The three templates of [bci_build.templates], rendered for an image;
    rendering evaluates properties of the image and so may raise. *)
Variables render_dockerfile render_kiwi render_service
  : Image → result string.

(** The built-in [str.capitalize]. *)
Variable capitalize : string → string.

(** The clock: the year that [config_sh] prints and the time stamp of the
    changelog entry. *)
Variables year stamp : string.

(** The file system: [resolve path] is the file that a path names, after
    normalisation and links, so that two paths name one file exactly when
    they resolve alike.  A folder maps the files that exist to their
    contents. *)
Variable resolve : string → string.

(** Modelled from the spec: [bci_build.util.write_to_file] is not among the
    sources.  A write that succeeds stores [contents] in the file that
    [path] names, replacing what was there; a write that fails raises an
    [OSError], which [write_files_to_folder] below lets through. *)
Definition write_to_file (path contents : string) (fs : gmap string string)
  : gmap string string :=
  <[resolve path := contents]> fs.

(** [os.path.exists(path)]. *)
Definition os_path_exists (path : string) (fs : gmap string string) : bool :=
  bool_decide (is_Some (fs !! resolve path)).

(** Runs write tasks one after the other. *)
Definition run_tasks (tasks : list (string * string)) (fs : gmap string string)
  : gmap string string :=
  foldl (λ fs task, write_to_file task.1 task.2 fs) fs tasks.

Definition changes_file_name (img : Image) : string :=
  BaseContainerImage.package_name (base_of img) +:+ ".changes".

(** The first branch of [write_files_to_folder]: the build description
    chosen by [build_recipe_type].  The result is the tasks created, as
    file names with their contents, and the exception when the branch
    raises; the kiwi file's task exists already when [config_sh] raises. *)
Definition build_description_tasks (img : Image)
  : list (string * string) * option PyError :=
  match BaseContainerImage.build_recipe_type (base_of img) with
  | Some DOCKER =>
      match render_dockerfile img with
      | Raise e => ([], Some e)
      | Ok dockerfile =>
          match last_char dockerfile with
          | None => ([], Some (IndexError "string index out of range"))
          | Some c =>
              let dockerfile :=
                if negb (Ascii.eqb c "010"%char) then dockerfile +:+ nl
                else dockerfile in
              ([("Dockerfile", dockerfile)], None)
          end
      end
  | Some KIWI =>
      let fname :=
        BaseContainerImage.package_name (base_of img) +:+ ".kiwi" in
      match render_kiwi img with
      | Raise e => ([], Some e)
      | Ok kiwi =>
          match config_sh year (base_of img) with
          | Raise e => ([(fname, kiwi)], Some e)
          | Ok cfg =>
              ([(fname, kiwi)]
                 ++ (if truthy cfg then [("config.sh", cfg)] else []),
               None)
          end
      end
  | None =>
      ([], Some (AssertionError
                   "got an unexpected build_recipe_type: 'None'"))
  end.

(** The changelog entry, planned only when [os.path.exists] finds no file
    at its destination. *)
Definition changes_tasks (img : Image) (dest : string)
    (fs : gmap string string) : list (string * string) :=
  let changes_file_dest := os_path_join dest (changes_file_name img) in
  if os_path_exists changes_file_dest fs then []
  else
    let name_to_include := BaseContainerImage.pretty_name (base_of img) in
    let name_to_include :=
      if str_contains "%" name_to_include
      then capitalize (BaseContainerImage.name (base_of img))
      else name_to_include in
    let name_to_include :=
      match img with
      | Stack self =>
          let ver := LanguageStackContainer.Version_str
                       (LanguageStackContainer.version self) in
          if negb (str_contains ver name_to_include)
             && LanguageStackContainer.version_in_uid self
          then name_to_include +:+ " " +:+ ver
          else name_to_include
      | Os _ => name_to_include
      end in
    [(changes_file_name img,
      text [ "-------------------------------------------------------------------";
             stamp +:+ " - SUSE Update Bot <bci-internal@suse.de>";
             "";
             "- First version of the " +:+ name_to_include +:+ " BCI" ])].

(** A task's file name joined to the destination. *)
Definition to_dest (dest : string) (task : string * string)
  : string * string :=
  (os_path_join dest task.1, task.2).

(** Everything [write_files_to_folder] does before [asyncio.gather]: the
    write tasks created so far, each with its full path and in the order
    of creation, and then the list of file names to return, or the
    exception raised on the way.  The tasks of the extra files are created
    last, after every place that can raise. *)
Definition write_files_plan (img : Image) (dest : string)
    (fs : gmap string string)
  : list (string * string) * result (list string) :=
  match build_description_tasks img with
  | (recipe, Some e) => (map (to_dest dest) recipe, Raise e)
  | (recipe, None) =>
      match render_service img with
      | Raise e => (map (to_dest dest) recipe, Raise e)
      | Ok service =>
          let changes := changes_tasks img dest fs in
          let extra := BaseContainerImage.extra_files (base_of img) in
          (map (to_dest dest)
             (recipe ++ [("_service", service)] ++ changes ++ extra),
           Ok (["_service"] ++ map fst recipe ++ map fst changes
                 ++ map fst extra))
      end
  end.

(** The run in which every write succeeds, in the order of creation, and
    in which no write has happened yet when an exception comes first. *)
Definition write_files_in_order (img : Image) (dest : string)
    (fs : gmap string string)
  : gmap string string * result (list string) :=
  match write_files_plan img dest fs with
  | (tasks, Ok files) => (run_tasks tasks fs, Ok files)
  | (_, Raise e) => (fs, Raise e)
  end.

(** [write_files_to_folder], as the folder it leaves and what it returns
    or raises.  [asyncio.gather] completes the writes in some order, so
    every schedule of the planned tasks is an outcome.  When a write fails
    its [OSError] is raised, and when an exception comes before
    [asyncio.gather] it is raised; either way the files of the tasks that
    exist by then may have been written, wholly or in part, and no other
    file. *)
Inductive write_files_to_folder (img : Image) (dest : string)
    (fs : gmap string string)
  : gmap string string * result (list string) → Prop :=
| write_files_done tasks files sched :
    write_files_plan img dest fs = (tasks, Ok files) →
    tasks ≡ₚ sched →
    write_files_to_folder img dest fs (run_tasks sched fs, Ok files)
| write_files_io_error tasks files partial msg :
    write_files_plan img dest fs = (tasks, Ok files) →
    partial.*1 ⊆ tasks.*1 →
    write_files_to_folder img dest fs
      (run_tasks partial fs, Raise (OSError msg))
| write_files_raise tasks e partial :
    write_files_plan img dest fs = (tasks, Raise e) →
    partial.*1 ⊆ tasks.*1 →
    write_files_to_folder img dest fs (run_tasks partial fs, Raise e).

End write_files.

(** ** Descriptors used as concrete inputs *)

Definition demo_base : BaseContainerImage.t := {|
  BaseContainerImage.name := "demo";
  BaseContainerImage.pretty_name := "Demo";
  BaseContainerImage.package_name := "demo-image";
  BaseContainerImage.os_version := SP5;
  BaseContainerImage.exclusive_arch := None;
  BaseContainerImage.is_latest := true;
  BaseContainerImage.package_list := [PkgStr "demo"];
  BaseContainerImage.custom_end := "";
  BaseContainerImage.config_sh_script := "";
  BaseContainerImage.config_sh_interpreter := "/bin/bash";
  BaseContainerImage.maintainer := None;
  BaseContainerImage.extra_files := [];
  BaseContainerImage.additional_names := [];
  BaseContainerImage.build_recipe_type := None;
  BaseContainerImage._image_properties := _SLE_IMAGE_PROPS;
|}.

Definition demo_stack : LanguageStackContainer.t := {|
  LanguageStackContainer.base := demo_base;
  LanguageStackContainer.stack_class := LanguageStackContainer.LanguageStack;
  LanguageStackContainer.version := LanguageStackContainer.VerStr "3.9";
  LanguageStackContainer.stability_tag := None;
  LanguageStackContainer.additional_versions := [];
  LanguageStackContainer.version_in_uid := true;
|}.

Definition init_os : OsContainer.t := {|
  BaseContainerImage.name := "init";
  BaseContainerImage.pretty_name := "Init";
  BaseContainerImage.package_name := "init-image";
  BaseContainerImage.os_version := SP5;
  BaseContainerImage.exclusive_arch := None;
  BaseContainerImage.is_latest := false;
  BaseContainerImage.package_list := [PkgStr "systemd"];
  BaseContainerImage.custom_end := "";
  BaseContainerImage.config_sh_script := "";
  BaseContainerImage.config_sh_interpreter := "/bin/bash";
  BaseContainerImage.maintainer := None;
  BaseContainerImage.extra_files := [];
  BaseContainerImage.additional_names := [];
  BaseContainerImage.build_recipe_type := None;
  BaseContainerImage._image_properties := _SLE_IMAGE_PROPS;
|}.

(** Field updates for building further inputs from the ones above. *)
Definition with_package_list (v : list PackageEntry)
    (self : BaseContainerImage.t) : BaseContainerImage.t :=
  {| BaseContainerImage.name := BaseContainerImage.name self;
     BaseContainerImage.pretty_name := BaseContainerImage.pretty_name self;
     BaseContainerImage.package_name := BaseContainerImage.package_name self;
     BaseContainerImage.os_version := BaseContainerImage.os_version self;
     BaseContainerImage.exclusive_arch :=
       BaseContainerImage.exclusive_arch self;
     BaseContainerImage.is_latest := BaseContainerImage.is_latest self;
     BaseContainerImage.package_list := v;
     BaseContainerImage.custom_end := BaseContainerImage.custom_end self;
     BaseContainerImage.config_sh_script :=
       BaseContainerImage.config_sh_script self;
     BaseContainerImage.config_sh_interpreter :=
       BaseContainerImage.config_sh_interpreter self;
     BaseContainerImage.maintainer := BaseContainerImage.maintainer self;
     BaseContainerImage.extra_files := BaseContainerImage.extra_files self;
     BaseContainerImage.additional_names :=
       BaseContainerImage.additional_names self;
     BaseContainerImage.build_recipe_type :=
       BaseContainerImage.build_recipe_type self;
     BaseContainerImage._image_properties :=
       BaseContainerImage._image_properties self |}.

Definition with_trailing (custom_end config_sh_script : string)
    (self : BaseContainerImage.t) : BaseContainerImage.t :=
  {| BaseContainerImage.name := BaseContainerImage.name self;
     BaseContainerImage.pretty_name := BaseContainerImage.pretty_name self;
     BaseContainerImage.package_name := BaseContainerImage.package_name self;
     BaseContainerImage.os_version := BaseContainerImage.os_version self;
     BaseContainerImage.exclusive_arch :=
       BaseContainerImage.exclusive_arch self;
     BaseContainerImage.is_latest := BaseContainerImage.is_latest self;
     BaseContainerImage.package_list := BaseContainerImage.package_list self;
     BaseContainerImage.custom_end := custom_end;
     BaseContainerImage.config_sh_script := config_sh_script;
     BaseContainerImage.config_sh_interpreter :=
       BaseContainerImage.config_sh_interpreter self;
     BaseContainerImage.maintainer := BaseContainerImage.maintainer self;
     BaseContainerImage.extra_files := BaseContainerImage.extra_files self;
     BaseContainerImage.additional_names :=
       BaseContainerImage.additional_names self;
     BaseContainerImage.build_recipe_type :=
       BaseContainerImage.build_recipe_type self;
     BaseContainerImage._image_properties :=
       BaseContainerImage._image_properties self |}.

Definition with_extra_files (v : list (string * string))
    (self : BaseContainerImage.t) : BaseContainerImage.t :=
  {| BaseContainerImage.name := BaseContainerImage.name self;
     BaseContainerImage.pretty_name := BaseContainerImage.pretty_name self;
     BaseContainerImage.package_name := BaseContainerImage.package_name self;
     BaseContainerImage.os_version := BaseContainerImage.os_version self;
     BaseContainerImage.exclusive_arch :=
       BaseContainerImage.exclusive_arch self;
     BaseContainerImage.is_latest := BaseContainerImage.is_latest self;
     BaseContainerImage.package_list := BaseContainerImage.package_list self;
     BaseContainerImage.custom_end := BaseContainerImage.custom_end self;
     BaseContainerImage.config_sh_script :=
       BaseContainerImage.config_sh_script self;
     BaseContainerImage.config_sh_interpreter :=
       BaseContainerImage.config_sh_interpreter self;
     BaseContainerImage.maintainer := BaseContainerImage.maintainer self;
     BaseContainerImage.extra_files := v;
     BaseContainerImage.additional_names :=
       BaseContainerImage.additional_names self;
     BaseContainerImage.build_recipe_type :=
       BaseContainerImage.build_recipe_type self;
     BaseContainerImage._image_properties :=
       BaseContainerImage._image_properties self |}.

(** An OS container declared without packages. *)
Definition no_packages_os : OsContainer.t := with_package_list [] init_os.

(** An OS container with both a [custom_end] and a [config.sh] script. *)
Definition both_trailing_os : OsContainer.t :=
  with_trailing "RUN useradd demo" "useradd demo" init_os.

(** The OS container above as its construction leaves it. *)
Definition init_os_built : OsContainer.t :=
  BaseContainerImage.set_maintainer (Some "SUSE LLC (https://www.suse.com/)")
    (BaseContainerImage.set_build_recipe_type (Some DOCKER) init_os).

(** The same container with an extra file named like its changelog. *)
Definition init_os_clash : OsContainer.t :=
  with_extra_files [("init-image.changes", "replaced")] init_os_built.

(** A package list with a bootstrap package. *)
Definition bootstrap_os : OsContainer.t :=
  with_package_list
    [PkgStr "bash"; PkgObj {| pkg_name := "glibc"; pkg_type := BOOTSTRAP |}]
    init_os.

(** A package list of plain names and packages of type [IMAGE]. *)
Definition image_only_os : OsContainer.t :=
  with_package_list
    [PkgStr "bash"; PkgObj {| pkg_name := "glibc"; pkg_type := IMAGE |};
     PkgStr "curl"]
    init_os.

(** Templates that render to fixed texts. *)
Definition fixed_dockerfile (_ : Image) : result string := Ok "FROM base".
Definition fixed_kiwi (_ : Image) : result string := Ok "<image/>".
Definition fixed_service (_ : Image) : result string := Ok "<services/>".

(** The language stack [demo_stack] as its construction leaves it. *)
Definition demo_stack_built : LanguageStackContainer.t :=
  LanguageStackContainer.set_base
    (BaseContainerImage.set_maintainer
       (Some "SUSE LLC (https://www.suse.com/)")
       (BaseContainerImage.set_build_recipe_type (Some DOCKER) demo_base))
    demo_stack.

(** A file system in which every path names a file of its own. *)
Definition same_file (path : string) : string := path.

(** A file system in which [out/_service] is a link to the changelog of
    [init_os_built]. *)
Definition service_link (path : string) : string :=
  if String.eqb path "out/_service" then "out/init-image.changes" else path.

(** The folder after the files of [init_os_built] are written through
    that link. *)
Definition folder_linked : gmap string string :=
  {[ "out/init-image.changes" := "<services/>";
     "out/Dockerfile" := "FROM base" +:+ nl ]}.

(** A destination folder that holds a changelog, and the same folder after
    the files of [init_os_clash] are written to it. *)
Definition folder_before : gmap string string :=
  {[ "out/init-image.changes" := "kept" ]}.

Definition folder_after : gmap string string :=
  {[ "out/init-image.changes" := "replaced";
     "out/Dockerfile" := "FROM base" +:+ nl;
     "out/_service" := "<services/>" ]}.

(** The recipe type a construction settles on: the one passed in, else the
    one that the OS version decides. *)
Definition settled_build_recipe_type (self : BaseContainerImage.t)
  : BuildType :=
  match BaseContainerImage.build_recipe_type self with
  | Some b => b
  | None =>
      if OsVersion_eqb (BaseContainerImage.os_version self) SP3
      then KIWI else DOCKER
  end.

(** The folder after the files of [init_os_built] are written to it. *)
Definition folder_kept : gmap string string :=
  {[ "out/init-image.changes" := "kept";
     "out/Dockerfile" := "FROM base" +:+ nl;
     "out/_service" := "<services/>" ]}.

(** A kiwi build of the OS container with a [custom_end] and no [config.sh]
    script: it passes construction unchanged. *)
Definition kiwi_custom_end_os : OsContainer.t :=
  BaseContainerImage.set_build_recipe_type (Some KIWI)
    (with_trailing "RUN useradd demo" "" init_os_built).

(** The vendor properties that [__post_init__] stores for an OS version. *)
Definition vendor_properties (os_version : OsVersion) : ImageProperties.t :=
  match os_version with
  | TUMBLEWEED => _OPENSUSE_IMAGE_PROPS
  | BASALT => _BASALT_IMAGE_PROPS
  | SP3 => _SLE_15_SP3_LTSS_IMAGE_PROPS
  | SP4 | SP5 | SP6 => _SLE_IMAGE_PROPS
  end.

(** The construction inputs that the build tags and the reference read:
    for a stack its class, version, stability tag and additional versions,
    and for every class the name, the additional names, [is_latest] and
    the OS version. *)
Definition tag_inputs (img : Image) :=
  (match img with
   | Os _ => None
   | Stack self =>
       Some (LanguageStackContainer.stack_class self,
             LanguageStackContainer.version self,
             LanguageStackContainer.stability_tag self,
             LanguageStackContainer.additional_versions self)
   end,
   BaseContainerImage.name (base_of img),
   BaseContainerImage.additional_names (base_of img),
   BaseContainerImage.is_latest (base_of img),
   BaseContainerImage.os_version (base_of img)).

(** ** Further string methods *)

(** [s.replace(old, new)] where [old] is one character, as at every call
    in the module. *)
Fixpoint str_replace (old : ascii) (new : string) (s : string) : string :=
  match s with
  | EmptyString => EmptyString
  | String c s' =>
      (if Ascii.eqb c old then new else String c EmptyString)
        +:+ str_replace old new s'
  end.

(** [s.split(sep)] where [sep] is one character. *)
Fixpoint str_split (sep : ascii) (s : string) : list string :=
  match s with
  | EmptyString => [EmptyString]
  | String c s' =>
      if Ascii.eqb c sep then EmptyString :: str_split sep s'
      else
        match str_split sep s' with
        | [] => [String c EmptyString]
        | word :: words => String c word :: words
        end
  end.

(** [s.endswith(suffix)]. *)
Definition str_endswith (s suffix : string) : bool :=
  (String.length suffix <=? String.length s)%nat
  && String.eqb
       (String.substring (String.length s - String.length suffix)
          (String.length suffix) s)
       suffix.

(** The number of occurrences of a character. *)
Fixpoint str_count (c : ascii) (s : string) : nat :=
  match s with
  | EmptyString => 0
  | String c' s' => (if Ascii.eqb c' c then 1 else 0) + str_count c s'
  end.

(** ** Further properties of the classes *)

(** [OsVersion.pretty_print]. *)
Definition pretty_print (v : OsVersion) : string :=
  match v with
  | TUMBLEWEED | BASALT => OsVersion_str v
  | _ => "SP" +:+ OsVersion_str v
  end.

(** [uid] of the two concrete classes. *)
Definition uid (img : Image) : string :=
  match img with
  | Os self => BaseContainerImage.name self
  | Stack self =>
      if LanguageStackContainer.version_in_uid self
      then LanguageStackContainer.name self +:+ "-"
             +:+ LanguageStackContainer.Version_str
                   (LanguageStackContainer.version self)
      else LanguageStackContainer.name self
  end.

(** The key under which [ALL_CONTAINER_IMAGE_NAMES] stores an image. *)
Definition catalog_key (img : Image) : string :=
  uid img +:+ "-"
    +:+ str_lower (pretty_print (BaseContainerImage.os_version (base_of img))).

(** [build_name]. *)
Definition build_name (img : Image) : option string :=
  match build_tags img with
  | [] => None
  | tag :: _ => Some (str_replace ":" "-" (str_replace "/" ":" tag))
  end.

(** The loop of [kiwi_additional_tags]: every build tag is split at its
    colons and unpacked into a path and a tag, which raises unless there
    are exactly two parts. *)
Fixpoint extra_tags (name : string) (buildtags : list string)
  : result (list string) :=
  match buildtags with
  | [] => Ok []
  | buildtag :: rest =>
      match str_split ":" buildtag with
      | [path; tag] =>
          extra ← extra_tags name rest;
          Ok (if str_endswith path name then tag :: extra else extra)
      | [] | [_] =>
          Raise (ValueError "not enough values to unpack (expected 2, got 1)")
      | _ => Raise (ValueError "too many values to unpack (expected 2)")
      end
  end.

Definition kiwi_additional_tags (img : Image) : result (option string) :=
  extra ← extra_tags (BaseContainerImage.name (base_of img))
             (tail (build_tags img));
  Ok (match extra with
      | [] => None
      | _ => Some (String.concat "," extra)
      end).

(** [dockerfile_custom_end]. *)
Definition DOCKERFILE_RUN : string := "RUN " +:+ _BASH_SET +:+ ";".

Definition dockerfile_custom_end (self : BaseContainerImage.t) : string :=
  if truthy (BaseContainerImage.custom_end self)
  then BaseContainerImage.custom_end self
  else if truthy (BaseContainerImage.config_sh_script self)
  then DOCKERFILE_RUN +:+ " " +:+ BaseContainerImage.config_sh_script self
  else "".

(** [kiwi_packages]: the filter of one package type, the four groups in the
    order of [PKG_TYPES], and the XML text. *)
Definition pkg_filter_func (ty : PackageType) (p : PackageEntry) : bool :=
  match p with
  | PkgStr _ => PackageType_eqb ty IMAGE
  | PkgObj p => PackageType_eqb (pkg_type p) ty
  end.

Definition PKG_TYPES : list PackageType := [DELETE; BOOTSTRAP; IMAGE; UNINSTALL].

Definition kiwi_package_groups (self : BaseContainerImage.t)
  : list (list PackageEntry * PackageType) :=
  map (λ ty,
         (List.filter (pkg_filter_func ty)
            (BaseContainerImage.package_list self), ty))
    PKG_TYPES.

Definition kiwi_packages (self : BaseContainerImage.t) : string :=
  foldl
    (λ res group,
       match group.1 with
       | [] => res
       | pkg_list =>
           res +:+
             (("  <packages type=" +:+ dq +:+ PackageType_str group.2
                 +:+ dq +:+ ">" +:+ nl +:+ "    ")
              +:+ String.concat (nl +:+ "    ")
                    (map (λ pkg, "<package name=" +:+ dq
                                   +:+ PackageEntry_str pkg +:+ dq +:+ "/>")
                       pkg_list)
              +:+ (nl +:+ "  </packages>" +:+ nl))
       end)
    "" (kiwi_package_groups self).

(** An OS container whose name contains a colon. *)
Definition colon_os : OsContainer.t := {|
  BaseContainerImage.name := "init:next";
  BaseContainerImage.pretty_name := "Init";
  BaseContainerImage.package_name := "init-image";
  BaseContainerImage.os_version := SP5;
  BaseContainerImage.exclusive_arch := None;
  BaseContainerImage.is_latest := false;
  BaseContainerImage.package_list := [PkgStr "systemd"];
  BaseContainerImage.custom_end := "";
  BaseContainerImage.config_sh_script := "";
  BaseContainerImage.config_sh_interpreter := "/bin/bash";
  BaseContainerImage.maintainer := None;
  BaseContainerImage.extra_files := [];
  BaseContainerImage.additional_names := [];
  BaseContainerImage.build_recipe_type := None;
  BaseContainerImage._image_properties := _SLE_IMAGE_PROPS;
|}.

(** The empty folder after the files of [init_os_built] are written to it
    in the order of their tasks. *)
Definition folder_created : gmap string string :=
  run_tasks same_file
    [ ("out/Dockerfile", "FROM base" +:+ nl);
      ("out/_service", "<services/>");
      ("out/init-image.changes",
       text [ "-------------------------------------------------------------------";
              "Mon Jan 01 00:00:00 UTC 2024"
                +:+ " - SUSE Update Bot <bci-internal@suse.de>";
              "";
              "- First version of the Init BCI" ]) ]
    ∅.

(** The OS container [init_os] declared with another package list and with
    the vendor properties of openSUSE passed in, and what its construction
    leaves. *)
Definition init_os_other : OsContainer.t :=
  with_package_list [PkgStr "bash"; PkgStr "curl"]
    (BaseContainerImage.set_image_properties _OPENSUSE_IMAGE_PROPS init_os).

Definition init_os_other_built : OsContainer.t :=
  with_package_list [PkgStr "bash"; PkgStr "curl"] init_os_built.

(** The constructed OS container with one extra file. *)
Definition init_os_extra : OsContainer.t :=
  with_extra_files [("LICENSE", "MIT")] init_os_built.

(** The folder after the files of [init_os_extra] are written to it. *)
Definition folder_extra : gmap string string :=
  {[ "out/init-image.changes" := "kept";
     "out/Dockerfile" := "FROM base" +:+ nl;
     "out/_service" := "<services/>";
     "out/LICENSE" := "MIT" ]}.

(** * Properties *)

(** ** Strings *)

Lemma append_assoc (a b c : string) : (a +:+ b) +:+ c = a +:+ (b +:+ c).
Proof.
  induction a as [|x a IH]; [reflexivity|].
  change (String x ((a +:+ b) +:+ c) = String x (a +:+ b +:+ c)).
  by f_equal.
Qed.

Lemma last_char_append (a b : string) :
  b ≠ "" → last_char (a +:+ b) = last_char b.
Proof.
  intros Hb. induction a as [|x a IH]; [reflexivity|].
  change (last_char (String x (a +:+ b)) = last_char b).
  destruct (a +:+ b) as [|y s] eqn:Hab.
  - destruct a; [by subst|discriminate].
  - simpl in *. exact IH.
Qed.

Lemma last_char_None (s : string) : last_char s = None → s = "".
Proof.
  induction s as [|x s IH]; [done|]. simpl. destruct s; [done|].
  intros H. by apply IH in H.
Qed.

(** ** Build tags and reference *)

(** C1: a language-stack descriptor named "demo" with version label "3.9",
    no stability tag, no additional names or versions and [is_latest] set
    has exactly the three build tags [prefix/demo:3.9],
    [prefix/demo:3.9-%RELEASE%] and [prefix/demo:latest], in this order,
    where [prefix] is its registry prefix. *)
Theorem build_tags_demo (self : LanguageStackContainer.t) :
  LanguageStackContainer.name self = "demo" →
  LanguageStackContainer.version_label self = "3.9" →
  LanguageStackContainer.stability_tag self = None →
  BaseContainerImage.additional_names (LanguageStackContainer.base self) = [] →
  LanguageStackContainer.additional_versions self = [] →
  BaseContainerImage.is_latest (LanguageStackContainer.base self) = true →
  build_tags (Stack self) =
    [ LanguageStackContainer._registry_prefix self +:+ "/demo:3.9";
      LanguageStackContainer._registry_prefix self +:+ "/demo:3.9-%RELEASE%";
      LanguageStackContainer._registry_prefix self +:+ "/demo:latest" ].
Proof.
  intros Hname Hver Hstab Hnames Hvers Hlatest.
  unfold build_tags, LanguageStackContainer.build_tags,
    LanguageStackContainer._release_suffix,
    LanguageStackContainer._stability_suffix.
  rewrite Hname, Hver, Hstab, Hnames, Hvers, Hlatest.
  reflexivity.
Qed.

Lemma build_tags_demo_witness :
  build_tags (Stack demo_stack) =
    [ "bci/demo:3.9"; "bci/demo:3.9-%RELEASE%"; "bci/demo:latest" ].
Proof. exact (build_tags_demo demo_stack eq_refl eq_refl eq_refl eq_refl eq_refl eq_refl). Defined.

(** C2, as stated, fails: with no stability tag the stability suffix is the
    empty string, so no index 0 is embedded in the release suffix. *)
Lemma stability_index_none_counterexample :
  LanguageStackContainer.stability_tag demo_stack = None ∧
  LanguageStackContainer._stability_suffix demo_stack = "" ∧
  LanguageStackContainer._stability_suffix demo_stack ≠ "0" ∧
  LanguageStackContainer._release_suffix demo_stack = "%RELEASE%" ∧
  LanguageStackContainer._release_suffix demo_stack ≠ "0.%RELEASE%".
Proof. repeat split; discriminate. Qed.

(** C2, amended: the index embedded in the release suffix is 1 for the
    stability tag "stable" and 2 for "oldstable", so the two release
    suffixes of one descriptor differ; with no stability tag no index is
    embedded and the release suffix is the bare [%RELEASE%]. *)
Theorem stability_index (self : LanguageStackContainer.t) :
  LanguageStackContainer._stability_suffix
    (LanguageStackContainer.set_stability_tag (Some "stable") self) = "1" ∧
  LanguageStackContainer._release_suffix
    (LanguageStackContainer.set_stability_tag (Some "stable") self)
    = "1.%RELEASE%" ∧
  LanguageStackContainer._stability_suffix
    (LanguageStackContainer.set_stability_tag (Some "oldstable") self) = "2" ∧
  LanguageStackContainer._release_suffix
    (LanguageStackContainer.set_stability_tag (Some "oldstable") self)
    = "2.%RELEASE%" ∧
  LanguageStackContainer._stability_suffix
    (LanguageStackContainer.set_stability_tag None self) = "" ∧
  LanguageStackContainer._release_suffix
    (LanguageStackContainer.set_stability_tag None self) = "%RELEASE%" ∧
  LanguageStackContainer._release_suffix
    (LanguageStackContainer.set_stability_tag (Some "stable") self)
  ≠ LanguageStackContainer._release_suffix
      (LanguageStackContainer.set_stability_tag (Some "oldstable") self).
Proof. repeat split; discriminate. Qed.

(** C3: an OS-base descriptor named "init" with registry prefix "bci", no
    additional names and [is_latest] unset has exactly the two build tags
    [bci/bci-init:%OS_VERSION_ID_SP%] and
    [bci/bci-init:%OS_VERSION_ID_SP%.%RELEASE%], and its version label is
    [%OS_VERSION_ID_SP%.%RELEASE%]. *)
Theorem build_tags_init (self : OsContainer.t) :
  BaseContainerImage.name self = "init" →
  BaseContainerImage._registry_prefix self = "bci" →
  BaseContainerImage.additional_names self = [] →
  BaseContainerImage.is_latest self = false →
  build_tags (Os self) =
    [ "bci/bci-init:%OS_VERSION_ID_SP%";
      "bci/bci-init:%OS_VERSION_ID_SP%.%RELEASE%" ] ∧
  OsContainer.version_label self = "%OS_VERSION_ID_SP%.%RELEASE%".
Proof.
  intros Hname Hprefix Hnames Hlatest. split; [|reflexivity].
  unfold build_tags, OsContainer.build_tags.
  rewrite Hname, Hprefix, Hnames, Hlatest. reflexivity.
Qed.

Lemma build_tags_init_witness :
  build_tags (Os init_os) =
    [ "bci/bci-init:%OS_VERSION_ID_SP%";
      "bci/bci-init:%OS_VERSION_ID_SP%.%RELEASE%" ] ∧
  OsContainer.version_label init_os = "%OS_VERSION_ID_SP%.%RELEASE%".
Proof. exact (build_tags_init init_os eq_refl eq_refl eq_refl eq_refl). Defined.

(** C4: the reference of a language-stack descriptor is
    [registry/prefix/name:version_label-release_suffix], built from the
    primary name and the primary version label; the additional names and
    the additional versions have no part in it. *)
Theorem reference_primary (self : LanguageStackContainer.t)
    (names versions : list string) :
  reference (Stack self) =
    LanguageStackContainer.registry self +:+ "/"
      +:+ LanguageStackContainer._registry_prefix self +:+ "/"
      +:+ LanguageStackContainer.name self +:+ ":"
      +:+ LanguageStackContainer.version_label self +:+ "-"
      +:+ LanguageStackContainer._release_suffix self ∧
  reference
    (Stack (LanguageStackContainer.set_additional_versions versions
              (LanguageStackContainer.set_base
                 (BaseContainerImage.set_additional_names names
                    (LanguageStackContainer.base self)) self)))
  = reference (Stack self).
Proof.
  split; [|reflexivity].
  unfold reference, LanguageStackContainer.reference.
  by rewrite !append_assoc.
Qed.

(** ** Construction *)

Lemma post_init_inv (self self' : BaseContainerImage.t) :
  BaseContainerImage.__post_init__ self = Ok self' →
  BaseContainerImage.package_list self ≠ [] ∧
  (truthy (BaseContainerImage.config_sh_script self)
     && truthy (BaseContainerImage.custom_end self) = false) ∧
  BaseContainerImage.build_recipe_type self'
    = Some (settled_build_recipe_type self) ∧
  BaseContainerImage.package_name self' = BaseContainerImage.package_name self.
Proof.
  unfold BaseContainerImage.__post_init__.
  case_bool_decide as Hpkgs; [discriminate|].
  destruct (BaseContainerImage.has_local_arch self); [discriminate|].
  destruct (truthy _ && truthy _) eqn:Hboth; [discriminate|].
  intros [= <-]. split; [done|]. split; [done|].
  destruct self as [? ? ? os ? ? ? ? ? ? m ? ? [b|] ?]; simpl;
    destruct os; simpl; destruct (truthy_opt m); simpl; done.
Qed.

(** C5: constructing a descriptor whose package list is empty raises the
    [ValueError] of the package check; no package list is filled in. *)
Theorem construct_empty_package_list (img : Image) :
  BaseContainerImage.package_list (base_of img) = [] →
  construct img =
    Raise (ValueError
             ("No packages were added to "
                +:+ BaseContainerImage.pretty_name (base_of img) +:+ ".")).
Proof.
  intros Hpkgs.
  destruct img as [self|self]; simpl in *;
    unfold OsContainer.__post_init__, LanguageStackContainer.__post_init__,
      BaseContainerImage.__post_init__;
    rewrite Hpkgs; reflexivity.
Qed.

Lemma construct_empty_package_list_witness :
  construct (Os no_packages_os) =
    Raise (ValueError "No packages were added to Init.").
Proof. exact (construct_empty_package_list (Os no_packages_os) eq_refl). Defined.

(** C6: constructing a descriptor that sets both [custom_end] and the
    [config.sh] script to non-empty strings raises a [ValueError]. *)
Theorem construct_both_trailing (img : Image) :
  BaseContainerImage.custom_end (base_of img) ≠ "" →
  BaseContainerImage.config_sh_script (base_of img) ≠ "" →
  ∃ msg, construct img = Raise (ValueError msg).
Proof.
  intros Hend Hscript.
  assert (∃ msg, BaseContainerImage.__post_init__ (base_of img)
                 = Raise (ValueError msg)) as [msg Hmsg].
  { unfold BaseContainerImage.__post_init__.
    case_bool_decide; [eauto|].
    destruct (BaseContainerImage.has_local_arch _); [eauto|].
    destruct (BaseContainerImage.config_sh_script _); [done|].
    destruct (BaseContainerImage.custom_end _); [done|].
    simpl. eauto. }
  exists msg. destruct img as [self|self]; simpl in *.
  - unfold OsContainer.__post_init__. by rewrite Hmsg.
  - unfold LanguageStackContainer.__post_init__. by rewrite Hmsg.
Qed.

Lemma construct_both_trailing_witness :
  ∃ msg, construct (Os both_trailing_os) = Raise (ValueError msg).
Proof.
  apply (construct_both_trailing (Os both_trailing_os)); discriminate.
Defined.

(** C7: a constructed descriptor has [build_recipe_type] set, to the value
    given at construction or else to the one the OS version decides (kiwi
    for SP3, Dockerfile otherwise), and [write_files_to_folder] takes the
    branch of that type and no other.  For a Dockerfile build whose
    template renders to a text that is not empty the one task is the
    [Dockerfile], ended by a newline; for a kiwi build whose template
    renders and whose [config.sh] exists the tasks are the kiwi file and
    [config.sh].  An exception of the branch is one that the template of
    that type raised, the [IndexError] of an empty Dockerfile, or the one
    that [config_sh] raised: the assertion on an unexpected type is never
    reached. *)
Theorem construct_build_recipe_type
    (render_dockerfile render_kiwi : Image → result string) (year : string)
    (img built : Image) :
  construct img = Ok built →
  BaseContainerImage.build_recipe_type (base_of built)
    = Some (settled_build_recipe_type (base_of img)) ∧
  match settled_build_recipe_type (base_of img) with
  | DOCKER =>
      (∀ text, render_dockerfile built = Ok text → text ≠ "" →
         build_description_tasks render_dockerfile render_kiwi year built
         = ([("Dockerfile",
              if bool_decide (last_char text = Some "010"%char)
              then text else text +:+ nl)], None)) ∧
      (∀ tasks e,
         build_description_tasks render_dockerfile render_kiwi year built
         = (tasks, Some e) →
         tasks = [] ∧
         (render_dockerfile built = Raise e ∨
          (render_dockerfile built = Ok ""
           ∧ e = IndexError "string index out of range")))
  | KIWI =>
      (∀ text cfg, render_kiwi built = Ok text →
         config_sh year (base_of built) = Ok cfg →
         build_description_tasks render_dockerfile render_kiwi year built
         = ([(BaseContainerImage.package_name (base_of built) +:+ ".kiwi",
              text);
             ("config.sh", cfg)], None)) ∧
      (∀ tasks e,
         build_description_tasks render_dockerfile render_kiwi year built
         = (tasks, Some e) →
         (tasks = [] ∧ render_kiwi built = Raise e) ∨
         (∃ text,
            render_kiwi built = Ok text ∧
            tasks = [(BaseContainerImage.package_name (base_of built)
                        +:+ ".kiwi", text)] ∧
            config_sh year (base_of built) = Raise e))
  end ∧
  ∀ tasks,
    build_description_tasks render_dockerfile render_kiwi year built
      = (tasks, None) →
    map fst tasks =
      match settled_build_recipe_type (base_of img) with
      | DOCKER => ["Dockerfile"]
      | KIWI =>
          [BaseContainerImage.package_name (base_of built) +:+ ".kiwi";
           "config.sh"]
      end.
Proof.
  intros Hc.
  assert (BaseContainerImage.build_recipe_type (base_of built)
          = Some (settled_build_recipe_type (base_of img))) as Htype.
  { destruct img as [self|self]; simpl in Hc.
    - unfold OsContainer.__post_init__ in Hc.
      destruct (BaseContainerImage.__post_init__ self) as [b|] eqn:Hb;
        [|discriminate].
      injection Hc as <-.
      apply post_init_inv in Hb as (_ & _ & Hb & _). exact Hb.
    - unfold LanguageStackContainer.__post_init__ in Hc.
      destruct (BaseContainerImage.__post_init__ _) as [b|] eqn:Hb;
        [|discriminate].
      simpl in Hc. destruct (negb _); [discriminate|].
      injection Hc as <-.
      apply post_init_inv in Hb as (_ & _ & Hb & _). exact Hb. }
  split; [done|].
  unfold build_description_tasks. rewrite Htype.
  destruct (settled_build_recipe_type _).
  - destruct (render_dockerfile built) as [text|e'].
    + destruct (last_char text) as [c|] eqn:Hlast.
      * split; [split|].
        -- intros ? [= <-] _. rewrite Hlast. do 2 f_equal.
           destruct (Ascii.eqb_spec c "010"%char) as [->|Hc'];
             [by rewrite bool_decide_eq_true_2|].
           rewrite bool_decide_eq_false_2; [done|congruence].
        -- discriminate.
        -- by intros ? [= <-].
      * apply last_char_None in Hlast as ->.
        split; [split|]; [by intros ? [= <-] ?| |discriminate].
        intros ? ? [= <- <-]. split; [done|]. by right.
    + split; [split|]; [discriminate| |discriminate].
      intros ? ? [= <- <-]. split; [done|]. by left.
  - destruct (render_kiwi built) as [text|e'].
    + destruct (config_sh year (base_of built)) as [cfg|e''] eqn:Hcfg.
      * assert (truthy cfg = true) as Hcfg'.
        { unfold config_sh in Hcfg. destruct (negb _ && _); [discriminate|].
          by injection Hcfg as <-. }
        rewrite Hcfg'. split; [split|].
        -- by intros ? ? [= <-] [= <-].
        -- discriminate.
        -- by intros ? [= <-].
      * split; [split|]; [discriminate| |discriminate].
        intros ? ? [= <- <-]. right. by exists text.
    + split; [split|]; [discriminate| |discriminate].
      intros ? ? [= <- <-]. by left.
Qed.

Lemma construct_build_recipe_type_witness :
  BaseContainerImage.build_recipe_type init_os_built = Some DOCKER ∧
  build_description_tasks fixed_dockerfile fixed_kiwi "2024"
    (Os init_os_built) = ([("Dockerfile", "FROM base" +:+ nl)], None).
Proof.
  destruct (construct_build_recipe_type fixed_dockerfile fixed_kiwi "2024"
              (Os init_os) (Os init_os_built) eq_refl)
    as (Hfield & [Hrendered _] & _).
  split; [exact Hfield|].
  apply (Hrendered "FROM base"); [reflexivity|discriminate].
Defined.

Lemma post_init_tag_fields (self self' : BaseContainerImage.t) :
  BaseContainerImage.__post_init__ self = Ok self' →
  BaseContainerImage.name self' = BaseContainerImage.name self ∧
  BaseContainerImage.additional_names self'
    = BaseContainerImage.additional_names self ∧
  BaseContainerImage.is_latest self' = BaseContainerImage.is_latest self ∧
  BaseContainerImage.os_version self' = BaseContainerImage.os_version self ∧
  BaseContainerImage._image_properties self'
    = vendor_properties (BaseContainerImage.os_version self).
Proof.
  unfold BaseContainerImage.__post_init__.
  case_bool_decide; [discriminate|].
  destruct (BaseContainerImage.has_local_arch self); [discriminate|].
  destruct (truthy _ && truthy _); [discriminate|].
  intros [= <-].
  destruct self as [? ? ? os ? ? ? ? ? ? m ? ? [b|] ?]; simpl;
    destruct os; simpl; destruct (truthy_opt m); simpl; done.
Qed.

Lemma construct_tag_inputs (img built : Image) :
  construct img = Ok built →
  tag_inputs built = tag_inputs img ∧
  BaseContainerImage._image_properties (base_of built)
    = vendor_properties (BaseContainerImage.os_version (base_of img)).
Proof.
  destruct img as [self|self]; simpl.
  - unfold OsContainer.__post_init__.
    destruct (BaseContainerImage.__post_init__ self) as [b|] eqn:Hb;
      [|discriminate].
    intros [= <-].
    apply post_init_tag_fields in Hb as (Hn & Ha & Hl & Ho & Hp).
    unfold tag_inputs. simpl. by rewrite Hn, Ha, Hl, Ho.
  - unfold LanguageStackContainer.__post_init__.
    destruct (BaseContainerImage.__post_init__ _) as [b|] eqn:Hb;
      [|discriminate].
    simpl. destruct (negb _); [discriminate|]. intros [= <-].
    apply post_init_tag_fields in Hb as (Hn & Ha & Hl & Ho & Hp).
    unfold tag_inputs. simpl. by rewrite Hn, Ha, Hl, Ho.
Qed.

(** The tags and the reference read nothing but the tag inputs and the
    vendor properties. *)
Lemma build_tags_reference_ext (img1 img2 : Image) :
  tag_inputs img1 = tag_inputs img2 →
  BaseContainerImage._image_properties (base_of img1)
    = BaseContainerImage._image_properties (base_of img2) →
  build_tags img1 = build_tags img2 ∧ reference img1 = reference img2.
Proof.
  unfold tag_inputs.
  destruct img1 as [b1|[b1 c1 v1 s1 a1 u1]], img2 as [b2|[b2 c2 v2 s2 a2 u2]];
    simpl; intros Hin Hprops; try discriminate;
    destruct b1, b2; simpl in *; simplify_eq; split; reflexivity.
Qed.

(** C9: two constructions from the same inputs give descriptors with the
    same build tags and the same reference.  It is enough that the inputs
    agree on what the tags are derived from: the class, the name, the
    additional names, [is_latest], the OS version and, for a stack, the
    version, the stability tag and the additional versions; the vendor
    properties and every other field passed in have no part in them. *)
Theorem construct_deterministic (img1 img2 built1 built2 : Image) :
  tag_inputs img1 = tag_inputs img2 →
  construct img1 = Ok built1 →
  construct img2 = Ok built2 →
  build_tags built1 = build_tags built2 ∧
  reference built1 = reference built2.
Proof.
  intros Hin H1 H2.
  apply construct_tag_inputs in H1 as [Hin1 Hp1].
  apply construct_tag_inputs in H2 as [Hin2 Hp2].
  apply build_tags_reference_ext; [congruence|].
  rewrite Hp1, Hp2. unfold tag_inputs in Hin. congruence.
Qed.

Lemma construct_deterministic_witness :
  build_tags (Os init_os_built) = build_tags (Os init_os_other_built) ∧
  reference (Os init_os_built) = reference (Os init_os_other_built).
Proof.
  exact (construct_deterministic (Os init_os) (Os init_os_other)
           (Os init_os_built) (Os init_os_other_built)
           eq_refl eq_refl eq_refl).
Defined.

(** ** The package string *)

Lemma first_non_image_None (l : list PackageEntry) :
  BaseContainerImage.first_non_image l = None ↔ ∀ p, PkgObj p ∈ l → pkg_type p = IMAGE.
Proof.
  induction l as [|[s|p] l IH]; simpl.
  - split; [|done]. intros _ p Hp. by apply elem_of_nil in Hp.
  - rewrite IH. split; intros H p Hp.
    + apply elem_of_cons in Hp as [|]; [done|by apply H].
    + apply H. by right.
  - destruct (pkg_type p) eqn:Hty; simpl;
      try (split; [discriminate|]; intros H;
           specialize (H p (list_elem_of_here _ _)); congruence).
    rewrite IH. split; intros H q Hq.
    + apply elem_of_cons in Hq as [[= ->]|]; [done|by apply H].
    + apply H. by right.
Qed.

(** C10: when the package list has a [Package] of a type other than
    [IMAGE], [packages] raises a [ValueError]; when every entry is a plain
    name or a [Package] of type [IMAGE], it returns the names in list order,
    separated by single spaces. *)
Theorem packages_dockerfile (self : BaseContainerImage.t) :
  ((∃ p, PkgObj p ∈ BaseContainerImage.package_list self
         ∧ pkg_type p ≠ IMAGE) →
   ∃ msg, BaseContainerImage.packages self = Raise (ValueError msg)) ∧
  ((∀ p, PkgObj p ∈ BaseContainerImage.package_list self
         → pkg_type p = IMAGE) →
   BaseContainerImage.packages self =
     Ok (String.concat " "
           (map PackageEntry_str (BaseContainerImage.package_list self)))).
Proof.
  unfold BaseContainerImage.packages. split.
  - intros (p & Hp & Hty).
    destruct (BaseContainerImage.first_non_image _) eqn:Hfirst; [eauto|].
    rewrite first_non_image_None in Hfirst.
    by specialize (Hfirst p Hp).
  - intros Hall. by apply first_non_image_None in Hall as ->.
Qed.

Lemma packages_dockerfile_witness :
  (∃ msg, BaseContainerImage.packages bootstrap_os = Raise (ValueError msg)) ∧
  BaseContainerImage.packages image_only_os = Ok "bash glibc curl".
Proof.
  split.
  - apply (proj1 (packages_dockerfile bootstrap_os)).
    exists {| pkg_name := "glibc"; pkg_type := BOOTSTRAP |}.
    split; [|discriminate]. simpl. apply elem_of_cons. right. left.
  - apply (proj2 (packages_dockerfile image_only_os)).
    intros p Hp. simpl in Hp.
    apply elem_of_cons in Hp as [Hp|Hp]; [discriminate|].
    apply elem_of_cons in Hp as [[= ->]|Hp]; [reflexivity|].
    apply elem_of_cons in Hp as [Hp|Hp]; [discriminate|].
    by apply elem_of_nil in Hp.
Defined.

(** ** Writing the files *)

Section write_files_facts.

Variables render_dockerfile render_kiwi render_service
  : Image → result string.
Variable capitalize : string → string.
Variables year stamp : string.
Variable resolve : string → string.

Lemma run_tasks_cons (task : string * string) (tasks : list (string * string))
    (fs : gmap string string) :
  run_tasks resolve (task :: tasks) fs
    = run_tasks resolve tasks (<[resolve task.1 := task.2]> fs).
Proof. reflexivity. Qed.

(** A file that no task writes keeps its contents, or stays absent. *)
Lemma run_tasks_lookup_other (tasks : list (string * string))
    (fs : gmap string string) (file : string) :
  file ∉ resolve <$> tasks.*1 →
  run_tasks resolve tasks fs !! file = fs !! file.
Proof.
  revert fs. induction tasks as [|task tasks IH]; intros fs Hfile; [done|].
  rewrite run_tasks_cons. rewrite !fmap_cons in Hfile.
  apply not_elem_of_cons in Hfile as [Hne Hfile].
  rewrite IH by done. by apply lookup_insert_ne.
Qed.

(** A file that some task writes ends with the contents of one of the
    tasks that write it. *)
Lemma run_tasks_lookup_written (tasks : list (string * string))
    (fs : gmap string string) (file : string) :
  file ∈ resolve <$> tasks.*1 →
  ∃ path contents,
    (path, contents) ∈ tasks ∧ resolve path = file ∧
    run_tasks resolve tasks fs !! file = Some contents.
Proof.
  revert fs. induction tasks as [|[p c] tasks IH]; intros fs Hfile.
  { by apply elem_of_nil in Hfile. }
  rewrite run_tasks_cons. simpl.
  destruct (decide (file ∈ resolve <$> tasks.*1)) as [Hin|Hout].
  - destruct (IH (<[resolve p := c]> fs) Hin) as (p' & c' & Hc' & Hp' & Hl).
    exists p', c'. split; [by right|done].
  - rewrite !fmap_cons in Hfile.
    apply elem_of_cons in Hfile as [->|]; [|done].
    exists p, c. split; [by left|]. split; [done|].
    rewrite run_tasks_lookup_other by done. by apply lookup_insert_eq.
Qed.

Lemma fmap_subseteq {A B} (f : A → B) (l1 l2 : list A) :
  l1 ⊆ l2 → f <$> l1 ⊆ f <$> l2.
Proof.
  intros Hsub y Hy. apply list_elem_of_fmap in Hy as (x & -> & Hx).
  apply list_elem_of_fmap_2. by apply Hsub.
Qed.

Lemma to_dest_fst (dest : string) (tasks : list (string * string)) :
  (map (to_dest dest) tasks).*1 = os_path_join dest <$> tasks.*1.
Proof.
  change (map ?f ?l) with (f <$> l). by rewrite <- !list_fmap_compose.
Qed.

(** What [write_files_plan] gives when nothing raises, and that its tasks
    are among those when something does. *)
Lemma write_files_plan_Ok (img : Image) (dest : string)
    (fs : gmap string string) (tasks : list (string * string))
    (files : list string) :
  write_files_plan render_dockerfile render_kiwi render_service capitalize
    year stamp resolve img dest fs = (tasks, Ok files) →
  ∃ recipe service,
    build_description_tasks render_dockerfile render_kiwi year img
      = (recipe, None) ∧
    render_service img = Ok service ∧
    tasks = map (to_dest dest)
              (recipe ++ [("_service", service)]
                 ++ changes_tasks capitalize stamp resolve img dest fs
                 ++ BaseContainerImage.extra_files (base_of img)) ∧
    files = "_service" :: recipe.*1
              ++ (changes_tasks capitalize stamp resolve img dest fs).*1
              ++ (BaseContainerImage.extra_files (base_of img)).*1.
Proof.
  unfold write_files_plan.
  destruct (build_description_tasks _ _ _ _) as [recipe [e|]];
    [discriminate|].
  destruct (render_service img) as [service|]; [|discriminate].
  intros [= <- <-]. by exists recipe, service.
Qed.

Lemma write_files_plan_Raise (img : Image) (dest : string)
    (fs : gmap string string) (tasks : list (string * string))
    (e : PyError) :
  write_files_plan render_dockerfile render_kiwi render_service capitalize
    year stamp resolve img dest fs = (tasks, Raise e) →
  tasks = map (to_dest dest)
            (build_description_tasks render_dockerfile render_kiwi year
               img).1 ∧
  ((build_description_tasks render_dockerfile render_kiwi year img).2
     = Some e ∨
   ((build_description_tasks render_dockerfile render_kiwi year img).2
      = None ∧ render_service img = Raise e)).
Proof.
  unfold write_files_plan.
  destruct (build_description_tasks _ _ _ _) as [recipe [e'|]]; simpl.
  - intros [= <- <-]. split; [done|by left].
  - destruct (render_service img) as [service|e']; [discriminate|].
    intros [= <- <-]. split; [done|by right].
Qed.

(** The paths of the planned tasks are the paths of the listed files. *)
Lemma write_files_plan_paths (img : Image) (dest : string)
    (fs : gmap string string) (tasks : list (string * string))
    (files : list string) :
  write_files_plan render_dockerfile render_kiwi render_service capitalize
    year stamp resolve img dest fs = (tasks, Ok files) →
  tasks.*1 ≡ₚ os_path_join dest <$> files.
Proof.
  intros Hplan.
  apply write_files_plan_Ok in Hplan
    as (recipe & service & _ & _ & -> & ->).
  rewrite to_dest_fst.
  rewrite !fmap_app. simpl. rewrite !fmap_app.
  by rewrite <- Permutation_middle.
Qed.

Lemma changes_tasks_cases (img : Image) (dest : string)
    (fs : gmap string string) :
  (is_Some (fs !! resolve (os_path_join dest (changes_file_name img)))
   ∧ changes_tasks capitalize stamp resolve img dest fs = []) ∨
  (fs !! resolve (os_path_join dest (changes_file_name img)) = None
   ∧ ∃ contents,
       changes_tasks capitalize stamp resolve img dest fs
       = [(changes_file_name img, contents)]).
Proof.
  unfold changes_tasks, os_path_exists.
  case_bool_decide as Hexists; [by left|].
  right. split; [|by eexists].
  by apply eq_None_not_Some.
Qed.

(** Every outcome leaves the folder as some writes to the planned paths
    leave it. *)
Lemma write_files_to_folder_inv (img : Image) (dest : string)
    (fs fs' : gmap string string) (r : result (list string)) :
  write_files_to_folder render_dockerfile render_kiwi render_service
    capitalize year stamp resolve img dest fs (fs', r) →
  ∃ written,
    fs' = run_tasks resolve written fs ∧
    written.*1 ⊆ (write_files_plan render_dockerfile render_kiwi
                    render_service capitalize year stamp resolve
                    img dest fs).1.*1.
Proof.
  inversion 1 as [tasks files sched Hplan Hperm
                 |tasks files partial msg Hplan Hsub
                 |tasks e partial Hplan Hsub]; subst; rewrite Hplan; simpl.
  - exists sched. split; [done|]. by rewrite Hperm.
  - by exists partial.
  - by exists partial.
Qed.

(** The run in creation order is one of the outcomes, so
    [write_files_to_folder] has an outcome for every input. *)
Lemma write_files_in_order_outcome (img : Image) (dest : string)
    (fs : gmap string string) :
  write_files_to_folder render_dockerfile render_kiwi render_service
    capitalize year stamp resolve img dest fs
    (write_files_in_order render_dockerfile render_kiwi render_service
       capitalize year stamp resolve img dest fs).
Proof.
  unfold write_files_in_order.
  destruct (write_files_plan _ _ _ _ _ _ _ _ _ _) as [tasks [files|e]]
    eqn:Hplan.
  - by eapply write_files_done.
  - change fs with (run_tasks resolve [] fs) at 2.
    eapply write_files_raise; [done|]. intros x Hx.
    by apply elem_of_nil in Hx.
Qed.

(** C8, amended: when the changelog exists at the destination and none of
    the other files that are written (the [_service] file, the build
    description, the extra files) is the changelog's file, every run of
    [write_files_to_folder], completed or not, leaves the changelog as it
    was.  A completed run returns the names of the [_service] file, of the
    build description and of the extra files, the changelog not among
    them, and each of these files then holds what one of the writes to it
    stored. *)
Theorem write_files_keeps_changes (img : Image) (dest : string)
    (fs fs' : gmap string string) (r : result (list string)) :
  is_Some (fs !! resolve (os_path_join dest (changes_file_name img))) →
  (∀ fname,
     fname ∈ "_service"
             :: (build_description_tasks render_dockerfile render_kiwi
                   year img).1.*1
             ++ (BaseContainerImage.extra_files (base_of img)).*1 →
     resolve (os_path_join dest fname)
       ≠ resolve (os_path_join dest (changes_file_name img))) →
  write_files_to_folder render_dockerfile render_kiwi render_service
    capitalize year stamp resolve img dest fs (fs', r) →
  fs' !! resolve (os_path_join dest (changes_file_name img))
    = fs !! resolve (os_path_join dest (changes_file_name img)) ∧
  ∀ files, r = Ok files →
    files = "_service"
              :: (build_description_tasks render_dockerfile render_kiwi
                    year img).1.*1
              ++ (BaseContainerImage.extra_files (base_of img)).*1 ∧
    (changes_file_name img ∉ files) ∧
    ∃ service,
      render_service img = Ok service ∧
      ∀ fname contents,
        (fname, contents)
          ∈ (build_description_tasks render_dockerfile render_kiwi
               year img).1
            ++ [("_service", service)]
            ++ BaseContainerImage.extra_files (base_of img) →
        ∃ fname' contents',
          (fname', contents')
            ∈ (build_description_tasks render_dockerfile render_kiwi
                 year img).1
              ++ [("_service", service)]
              ++ BaseContainerImage.extra_files (base_of img) ∧
          resolve (os_path_join dest fname')
            = resolve (os_path_join dest fname) ∧
          fs' !! resolve (os_path_join dest fname) = Some contents'.
Proof.
  intros Hexists Hother Hrun.
  set (extra := BaseContainerImage.extra_files (base_of img)) in *.
  set (recipe := (build_description_tasks render_dockerfile render_kiwi
                    year img).1) in *.
  split.
  - apply write_files_to_folder_inv in Hrun as (written & -> & Hsub).
    apply run_tasks_lookup_other. intros Hin.
    apply (fmap_subseteq resolve) in Hsub. apply Hsub in Hin. clear Hsub.
    destruct (write_files_plan _ _ _ _ _ _ _ _ _ _) as [tasks [files|e]]
      eqn:Hplan; simpl in Hin.
    + rewrite (write_files_plan_paths _ _ _ _ _ Hplan) in Hin.
      apply write_files_plan_Ok in Hplan
        as (recipe' & service & Hrecipe & _ & _ & ->).
      destruct (changes_tasks_cases img dest fs) as [[_ Hc]|[Hnone _]];
        [|rewrite Hnone in Hexists; by destruct Hexists].
      rewrite Hc in Hin.
      apply list_elem_of_fmap in Hin as (path & Hpath & Hin).
      apply list_elem_of_fmap in Hin as (fname & -> & Hin).
      symmetry in Hpath. revert Hpath. apply Hother.
      unfold recipe. by rewrite Hrecipe.
    + apply write_files_plan_Raise in Hplan as [-> _].
      rewrite to_dest_fst in Hin.
      apply list_elem_of_fmap in Hin as (path & Hpath & Hin).
      apply list_elem_of_fmap in Hin as (fname & -> & Hin).
      symmetry in Hpath. revert Hpath. apply Hother.
      right. apply elem_of_app. by left.
  - intros files ->.
    inversion Hrun as [tasks files' sched Hplan Hperm| |]; subst.
    apply write_files_plan_Ok in Hplan
      as (recipe' & service & Hrecipe & Hservice & -> & ->).
    assert (recipe = recipe') as <- by (unfold recipe; by rewrite Hrecipe).
    destruct (changes_tasks_cases img dest fs) as [[_ Hc]|[Hnone _]];
      [|rewrite Hnone in Hexists; by destruct Hexists].
    rewrite Hc in *. simpl. split; [done|]. split.
    { intros Hin. by apply (Hother (changes_file_name img)). }
    exists service. split; [done|]. fold extra.
    intros fname contents Hin.
    destruct (run_tasks_lookup_written sched fs
                (resolve (os_path_join dest fname)))
      as (path & contents' & Hc' & Hpath & Hlookup).
    { rewrite <- Hperm, to_dest_fst.
      apply list_elem_of_fmap_2, list_elem_of_fmap_2.
      apply list_elem_of_fmap. by exists (fname, contents). }
    rewrite <- Hperm in Hc'.
    apply list_elem_of_In, in_map_iff in Hc' as ([fname' c''] & Heq & Hin').
    injection Heq as <- <-. apply list_elem_of_In in Hin'.
    by exists fname', c''.
Qed.

End write_files_facts.

(** A descriptor that construction accepts can still make
    [write_files_to_folder] raise: for a kiwi build with a [custom_end]
    every run raises, and none writes the [_service] file. *)
Lemma write_files_kiwi_custom_end_raises :
  construct (Os kiwi_custom_end_os) = Ok (Os kiwi_custom_end_os) ∧
  write_files_to_folder fixed_dockerfile fixed_kiwi fixed_service
    capitalize_ascii "2024" "Mon Jan 01 00:00:00 UTC 2024" same_file
    (Os kiwi_custom_end_os) "out" folder_before
    (folder_before,
     Raise (ValueError
       "This image cannot be build as a kiwi image, it has a `custom_end` set.")) ∧
  ∀ fs' r,
    write_files_to_folder fixed_dockerfile fixed_kiwi fixed_service
      capitalize_ascii "2024" "Mon Jan 01 00:00:00 UTC 2024" same_file
      (Os kiwi_custom_end_os) "out" folder_before (fs', r) →
    r = Raise (ValueError
          "This image cannot be build as a kiwi image, it has a `custom_end` set.")
    ∧ fs' !! "out/_service" = None.
Proof.
  split; [reflexivity|]. split.
  { exact (write_files_in_order_outcome fixed_dockerfile fixed_kiwi
             fixed_service capitalize_ascii "2024"
             "Mon Jan 01 00:00:00 UTC 2024" same_file
             (Os kiwi_custom_end_os) "out" folder_before). }
  intros fs' r Hrun.
  inversion Hrun as [tasks files sched Hplan Hperm
                    |tasks files partial msg Hplan Hsub
                    |tasks e partial Hplan Hsub]; subst;
    vm_compute in Hplan; try discriminate.
  injection Hplan as <- <-. split; [reflexivity|].
  rewrite run_tasks_lookup_other; [reflexivity|].
  intros Hin. apply list_elem_of_fmap in Hin as (path & Hpath & Hin).
  apply Hsub in Hin. simpl in Hin.
  apply list_elem_of_singleton in Hin as ->. discriminate.
Qed.

(** C8, as stated, fails: an extra file of the descriptor that is named
    like the changelog is written over a changelog that exists. *)
Lemma write_files_changes_counterexample :
  folder_before
    !! same_file (os_path_join "out" (changes_file_name (Os init_os_clash)))
    = Some "kept" ∧
  write_files_to_folder fixed_dockerfile fixed_kiwi fixed_service
    capitalize_ascii "2024" "Mon Jan 01 00:00:00 UTC 2024" same_file
    (Os init_os_clash) "out" folder_before
    (folder_after, Ok ["_service"; "Dockerfile"; "init-image.changes"]) ∧
  folder_after
    !! same_file (os_path_join "out" (changes_file_name (Os init_os_clash)))
    = Some "replaced".
Proof.
  split; [done|]. split; [|done].
  assert (folder_after = run_tasks same_file
            [ ("out/Dockerfile", "FROM base" +:+ nl);
              ("out/_service", "<services/>");
              ("out/init-image.changes", "replaced") ] folder_before) as ->.
  { by vm_compute. }
  by eapply write_files_done.
Qed.

(** The same happens without such an extra file when another written file
    is the changelog's file: here [_service] is a link to it. *)
Lemma write_files_link_replaces_changes :
  write_files_to_folder fixed_dockerfile fixed_kiwi fixed_service
    capitalize_ascii "2024" "Mon Jan 01 00:00:00 UTC 2024" service_link
    (Os init_os_built) "out" folder_before
    (folder_linked, Ok ["_service"; "Dockerfile"]) ∧
  folder_before
    !! service_link
         (os_path_join "out" (changes_file_name (Os init_os_built)))
    = Some "kept" ∧
  folder_linked
    !! service_link
         (os_path_join "out" (changes_file_name (Os init_os_built)))
    = Some "<services/>".
Proof.
  split; [|done].
  assert (folder_linked = run_tasks service_link
            [ ("out/Dockerfile", "FROM base" +:+ nl);
              ("out/_service", "<services/>") ] folder_before) as ->.
  { by vm_compute. }
  by eapply write_files_done.
Qed.

Lemma init_os_extra_outcome :
  write_files_to_folder fixed_dockerfile fixed_kiwi fixed_service
    capitalize_ascii "2024" "Mon Jan 01 00:00:00 UTC 2024" same_file
    (Os init_os_extra) "out" folder_before
    (folder_extra, Ok ["_service"; "Dockerfile"; "LICENSE"]).
Proof.
  assert (folder_extra = run_tasks same_file
            [ ("out/Dockerfile", "FROM base" +:+ nl);
              ("out/_service", "<services/>");
              ("out/LICENSE", "MIT") ] folder_before) as ->.
  { by vm_compute. }
  by eapply write_files_done.
Qed.

Lemma write_files_keeps_changes_witness :
  folder_extra !! "out/init-image.changes" = Some "kept" ∧
  folder_extra !! "out/LICENSE" = Some "MIT".
Proof.
  destruct (write_files_keeps_changes fixed_dockerfile fixed_kiwi
              fixed_service capitalize_ascii "2024"
              "Mon Jan 01 00:00:00 UTC 2024" same_file
              (Os init_os_extra) "out" folder_before folder_extra
              (Ok ["_service"; "Dockerfile"; "LICENSE"]))
    as [Hkept Hfiles].
  - exists "kept". reflexivity.
  - intros fname Hin.
    change (fname ∈ ["_service"; "Dockerfile"; "LICENSE"]) in Hin.
    repeat (apply elem_of_cons in Hin as [->|Hin];
            [vm_compute; discriminate|]).
    by apply elem_of_nil in Hin.
  - exact init_os_extra_outcome.
  - split; [exact Hkept|]. reflexivity.
Defined.

(** * Further properties *)

(** ** Construction *)

Lemma truthy_true (s : string) : truthy s = true ↔ s ≠ "".
Proof. by destruct s. Qed.

Lemma has_local_arch_false (self : BaseContainerImage.t) :
  BaseContainerImage.has_local_arch self = false ↔
  ∀ archs, BaseContainerImage.exclusive_arch self = Some archs → LOCAL ∉ archs.
Proof.
  unfold BaseContainerImage.has_local_arch.
  destruct (BaseContainerImage.exclusive_arch self) as [archs|].
  - assert (existsb (Arch_eqb LOCAL) archs = false ↔ LOCAL ∉ archs) as Hex.
    { induction archs as [|a archs IH]; simpl.
      - split; [intros _ H; by apply elem_of_nil in H|done].
      - rewrite not_elem_of_cons, orb_false_iff, IH.
        by destruct a; simpl; intuition. }
    destruct archs as [|a archs].
    + split; [|done]. intros _ ? [= <-] H. by apply elem_of_nil in H.
    + rewrite Hex. split; [by intros H ? [= <-]|eauto].
  - split; [by intros _ ? [=]|done].
Qed.

Lemma post_init_succeeds_iff (self : BaseContainerImage.t) :
  (∃ built, BaseContainerImage.__post_init__ self = Ok built) ↔
  BaseContainerImage.package_list self ≠ [] ∧
  (∀ archs, BaseContainerImage.exclusive_arch self = Some archs →
            LOCAL ∉ archs) ∧
  ¬ (BaseContainerImage.config_sh_script self ≠ ""
     ∧ BaseContainerImage.custom_end self ≠ "").
Proof.
  rewrite <- has_local_arch_false, <- !truthy_true.
  unfold BaseContainerImage.__post_init__.
  case_bool_decide as Hpkgs.
  { split; [by intros [? [=]]|by intros [? _]]. }
  destruct (BaseContainerImage.has_local_arch self).
  { split; [by intros [? [=]]|by intros (_ & ? & _)]. }
  destruct (truthy (BaseContainerImage.config_sh_script self)),
    (truthy (BaseContainerImage.custom_end self)); simpl;
    try (split; [intros _; by intuition|eauto]).
  split; [by intros [? [=]]|]. intros (_ & _ & H). by destruct H.
Qed.

Lemma post_init_raises_ValueError (self : BaseContainerImage.t) (e : PyError) :
  BaseContainerImage.__post_init__ self = Raise e → ∃ msg, e = ValueError msg.
Proof.
  unfold BaseContainerImage.__post_init__.
  case_bool_decide; [intros [= <-]; eauto|].
  destruct (BaseContainerImage.has_local_arch self); [intros [= <-]; eauto|].
  destruct (truthy _ && truthy _); [intros [= <-]; eauto|discriminate].
Qed.

(** X1: construction succeeds exactly when the package list is not empty, the
    exclusive architectures do not name [LOCAL], not both [custom_end] and
    the [config.sh] script are set and, for a stack, the version is neither
    the empty string nor zero; every failure is a [ValueError]. *)
Theorem construct_succeeds_iff (img : Image) :
  ((∃ built, construct img = Ok built) ↔
   BaseContainerImage.package_list (base_of img) ≠ [] ∧
   (∀ archs, BaseContainerImage.exclusive_arch (base_of img) = Some archs →
             LOCAL ∉ archs) ∧
   ¬ (BaseContainerImage.config_sh_script (base_of img) ≠ ""
      ∧ BaseContainerImage.custom_end (base_of img) ≠ "") ∧
   match img with
   | Os _ => True
   | Stack self =>
       LanguageStackContainer.version self
         ≠ LanguageStackContainer.VerStr "" ∧
       LanguageStackContainer.version self
         ≠ LanguageStackContainer.VerInt 0
   end) ∧
  (∀ e, construct img = Raise e → ∃ msg, e = ValueError msg).
Proof.
  destruct img as [self|self]; simpl.
  - unfold OsContainer.__post_init__.
    pose proof (post_init_succeeds_iff self) as Hiff.
    destruct (BaseContainerImage.__post_init__ self) as [b|e'] eqn:Hb; simpl.
    + split; [|discriminate]. split; [intros _|eauto].
      destruct (proj1 Hiff) as (? & ? & ?); eauto.
    + split; [|intros e [= <-]; by apply (post_init_raises_ValueError self)].
      split; [by intros [? [=]]|]. intros (? & ? & ? & _).
      destruct (proj2 Hiff) as [? [=]]. done.
  - unfold LanguageStackContainer.__post_init__.
    pose proof (post_init_succeeds_iff (LanguageStackContainer.base self))
      as Hiff.
    destruct (BaseContainerImage.__post_init__ _) as [b|e'] eqn:Hb; simpl.
    + destruct (proj1 Hiff) as (? & ? & ?); [eauto|].
      destruct (LanguageStackContainer.version self) as [[|]|[| |]]; simpl.
      all: split; [|try discriminate; intros e [= <-]; eauto].
      all: split; [try by intros [? [=]]|].
      all: try (intros _; by split_and!).
      all: try (intros (_ & _ & _ & ? & ?); done).
      all: eauto.
    + split; [|intros e [= <-]; by apply (post_init_raises_ValueError _ _ Hb)].
      split; [by intros [? [=]]|]. intros (? & ? & ? & _).
      destruct (proj2 Hiff) as [? [=]]. done.
Qed.

Lemma construct_succeeds_iff_witness :
  ∃ built, construct (Stack demo_stack) = Ok built.
Proof.
  apply (proj1 (construct_succeeds_iff (Stack demo_stack))).
  repeat split; try discriminate.
  intros [_ H]. done.
Defined.

Lemma post_init_idempotent (self built : BaseContainerImage.t) :
  BaseContainerImage.__post_init__ self = Ok built →
  BaseContainerImage.__post_init__ built = Ok built.
Proof.
  unfold BaseContainerImage.__post_init__ at 1.
  case_bool_decide as Hpkgs; [discriminate|].
  destruct (BaseContainerImage.has_local_arch self) eqn:Harch; [discriminate|].
  destruct (truthy _ && truthy _) eqn:Hboth; [discriminate|].
  intros [= <-].
  destruct self as [n pn pk os ar la pl ce cs ci m ef an bt ip].
  unfold BaseContainerImage.has_local_arch in Harch. simpl in *.
  unfold BaseContainerImage.__post_init__.
  destruct bt as [b|], os, m as [[|c m]|]; simpl;
    rewrite bool_decide_eq_false_2 by done;
    unfold BaseContainerImage.has_local_arch; simpl;
    rewrite Harch, Hboth; reflexivity.
Qed.

(** X2: constructing a descriptor that construction has produced gives the
    same descriptor again. *)
Theorem construct_idempotent (img built : Image) :
  construct img = Ok built → construct built = Ok built.
Proof.
  destruct img as [self|self]; simpl.
  - unfold OsContainer.__post_init__.
    destruct (BaseContainerImage.__post_init__ self) as [b|] eqn:Hb;
      [|discriminate].
    intros [= <-]. simpl. unfold OsContainer.__post_init__.
    by rewrite (post_init_idempotent _ _ Hb).
  - unfold LanguageStackContainer.__post_init__.
    destruct (BaseContainerImage.__post_init__ _) as [b|] eqn:Hb;
      [|discriminate].
    simpl. destruct (negb _) eqn:Hver; [discriminate|]. intros [= <-].
    simpl. unfold LanguageStackContainer.__post_init__. simpl.
    rewrite (post_init_idempotent _ _ Hb). simpl. by rewrite Hver.
Qed.

Lemma construct_idempotent_witness :
  construct (Stack demo_stack_built) = Ok (Stack demo_stack_built).
Proof.
  exact (construct_idempotent (Stack demo_stack) (Stack demo_stack_built)
           eq_refl).
Defined.

(** X3: after construction the registry prefix of the base class is the build
    tag prefix of the OS version, whatever vendor properties were passed
    in, and the registry is the openSUSE one exactly for Tumbleweed. *)
Theorem construct_registry_prefix (img built : Image) :
  construct img = Ok built →
  BaseContainerImage._registry_prefix (base_of built)
    = _build_tag_prefix (BaseContainerImage.os_version (base_of img)) ∧
  BaseContainerImage.registry (base_of built)
    = (if OsVersion_eqb (BaseContainerImage.os_version (base_of img))
            TUMBLEWEED
       then "registry.opensuse.org" else "registry.suse.com").
Proof.
  intros Hc. apply construct_tag_inputs in Hc as [_ Hprops].
  unfold BaseContainerImage._registry_prefix, BaseContainerImage.registry.
  rewrite Hprops.
  by destruct (BaseContainerImage.os_version (base_of img)).
Qed.

Lemma construct_registry_prefix_witness :
  BaseContainerImage._registry_prefix init_os_built = "bci" ∧
  BaseContainerImage.registry init_os_built = "registry.suse.com".
Proof.
  exact (construct_registry_prefix (Os init_os) (Os init_os_built) eq_refl).
Defined.

(** X4: after construction the maintainer is set and not empty: the one passed
    in when that is not empty, else the vendor's. *)
Theorem construct_maintainer (img built : Image) :
  construct img = Ok built →
  ∃ m, BaseContainerImage.maintainer (base_of built) = Some m ∧ m ≠ "" ∧
       (truthy_opt (BaseContainerImage.maintainer (base_of img)) = true →
        BaseContainerImage.maintainer (base_of img) = Some m) ∧
       (truthy_opt (BaseContainerImage.maintainer (base_of img)) = false →
        m = ImageProperties.maintainer
              (vendor_properties
                 (BaseContainerImage.os_version (base_of img)))).
Proof.
  assert (∀ self b, BaseContainerImage.__post_init__ self = Ok b →
    ∃ m, BaseContainerImage.maintainer b = Some m ∧ m ≠ "" ∧
       (truthy_opt (BaseContainerImage.maintainer self) = true →
        BaseContainerImage.maintainer self = Some m) ∧
       (truthy_opt (BaseContainerImage.maintainer self) = false →
        m = ImageProperties.maintainer
              (vendor_properties (BaseContainerImage.os_version self))))
    as Hbase.
  { intros self b. unfold BaseContainerImage.__post_init__.
    case_bool_decide; [discriminate|].
    destruct (BaseContainerImage.has_local_arch self); [discriminate|].
    destruct (truthy _ && truthy _); [discriminate|].
    intros [= <-].
    destruct self as [? ? ? os ? ? ? ? ? ? [[|c m]|] ? ? [bt|] ?];
      destruct os; simpl; eexists; (split; [reflexivity|]); done. }
  destruct img as [self|self]; simpl.
  - unfold OsContainer.__post_init__.
    destruct (BaseContainerImage.__post_init__ self) as [b|] eqn:Hb;
      [|discriminate].
    intros [= <-]. by apply Hbase.
  - unfold LanguageStackContainer.__post_init__.
    destruct (BaseContainerImage.__post_init__ _) as [b|] eqn:Hb;
      [|discriminate].
    simpl. destruct (negb _); [discriminate|]. intros [= <-].
    by apply Hbase.
Qed.

Lemma construct_maintainer_witness :
  ∃ m, BaseContainerImage.maintainer init_os_built = Some m ∧ m ≠ "" ∧
       (truthy_opt (BaseContainerImage.maintainer init_os) = true →
        BaseContainerImage.maintainer init_os = Some m) ∧
       (truthy_opt (BaseContainerImage.maintainer init_os) = false →
        m = ImageProperties.maintainer (vendor_properties SP5)).
Proof.
  exact (construct_maintainer (Os init_os) (Os init_os_built) eq_refl).
Defined.

(** ** Build tags, reference and build name *)

(** X5: the reference is the registry followed by one of the build tags. *)
Theorem reference_in_build_tags (img : Image) :
  ∃ tag, tag ∈ build_tags img ∧
         reference img
           = BaseContainerImage.registry (base_of img) +:+ "/" +:+ tag.
Proof.
  destruct img as [self|self]; simpl.
  - exists (BaseContainerImage._registry_prefix self +:+ "/bci-"
              +:+ BaseContainerImage.name self +:+ ":"
              +:+ OsContainer.version_label self).
    split.
    + unfold OsContainer.build_tags. simpl. right. left.
    + reflexivity.
  - exists (LanguageStackContainer._registry_prefix self +:+ "/"
              +:+ LanguageStackContainer.name self +:+ ":"
              +:+ LanguageStackContainer.version_label self +:+ "-"
              +:+ LanguageStackContainer._release_suffix self).
    split.
    + unfold LanguageStackContainer.build_tags. simpl.
      apply elem_of_app. left. apply elem_of_app. left.
      destruct (truthy_opt _); simpl.
      * do 3 right. left.
      * right. left.
    + unfold LanguageStackContainer.reference,
        LanguageStackContainer.registry.
      by rewrite !append_assoc.
Qed.

Lemma flat_map_length_const {A B} (f : A → list B) (l : list A) (n : nat) :
  (∀ x, length (f x) = n) → length (flat_map f l) = length l * n.
Proof.
  intros Hf. induction l as [|x l IH]; [done|].
  simpl. rewrite length_app, Hf, IH. lia.
Qed.

(** X6: the number of build tags: every publishing name gets two tags for each
    version label (the stability tag, the version, the additional
    versions) and one more when [is_latest] is set; an OS container gets
    two tags for each name, and one more when [is_latest] is set. *)
Theorem build_tags_length (img : Image) :
  length (build_tags img) =
    (1 + length (BaseContainerImage.additional_names (base_of img)))
    * (match img with
       | Os _ => 2
       | Stack self =>
           2 * ((if truthy_opt (LanguageStackContainer.stability_tag self)
                 then 2 else 1)
                + length (LanguageStackContainer.additional_versions self))
       end
       + (if BaseContainerImage.is_latest (base_of img) then 1 else 0)).
Proof.
  destruct img as [self|self]; cbn [build_tags base_of].
  - unfold OsContainer.build_tags.
    rewrite (flat_map_length_const _ _
               (2 + if BaseContainerImage.is_latest self then 1 else 0)).
    + rewrite length_app. simpl. lia.
    + intros name. by destruct (BaseContainerImage.is_latest self).
  - unfold LanguageStackContainer.build_tags.
    erewrite flat_map_length_const.
    + rewrite length_app. simpl length at 1. reflexivity.
    + intros name. rewrite length_app.
      erewrite (flat_map_length_const _ _ 2) by done.
      rewrite length_app.
      destruct (truthy_opt _), (BaseContainerImage.is_latest _); simpl; lia.
Qed.

(** X7: the release suffix takes one of three values: it carries the index 1 or
    2 exactly for the stability tags "stable" and "oldstable", and no index
    for every other tag and for none. *)
Theorem release_suffix_cases (self : LanguageStackContainer.t) :
  (LanguageStackContainer.stability_tag self = Some "stable" ∧
   LanguageStackContainer._release_suffix self = "1.%RELEASE%") ∨
  (LanguageStackContainer.stability_tag self = Some "oldstable" ∧
   LanguageStackContainer._release_suffix self = "2.%RELEASE%") ∨
  (LanguageStackContainer.stability_tag self ≠ Some "stable" ∧
   LanguageStackContainer.stability_tag self ≠ Some "oldstable" ∧
   LanguageStackContainer._release_suffix self = "%RELEASE%").
Proof.
  unfold LanguageStackContainer._release_suffix,
    LanguageStackContainer._stability_suffix.
  destruct (LanguageStackContainer.stability_tag self) as [tag|];
    [|by right; right].
  destruct (decide (tag = "stable")) as [->|Hs]; [by left|].
  destruct (decide (tag = "oldstable")) as [->|Ho]; [by right; left|].
  right. right. split; [congruence|]. split; [congruence|].
  destruct (truthy_opt (Some tag)); [|done].
  unfold LanguageStackContainer.tuple_index,
    LanguageStackContainer._STABILITY_TAG_ORDERING.
  rewrite !bool_decide_eq_false_2 by congruence. done.
Qed.

(** ** Strings *)

Lemma append_cons (c : ascii) (a b : string) :
  String c a +:+ b = String c (a +:+ b).
Proof. reflexivity. Qed.

Lemma append_empty_l (a : string) : "" +:+ a = a.
Proof. reflexivity. Qed.

Lemma str_count_append (c : ascii) (a b : string) :
  str_count c (a +:+ b) = str_count c a + str_count c b.
Proof.
  induction a as [|x a IH]; [done|].
  rewrite append_cons. simpl. rewrite IH. lia.
Qed.

Lemma str_count_replace_old (old : ascii) (new s : string) :
  str_count old new = 0 → str_count old (str_replace old new s) = 0.
Proof.
  intros Hnew. induction s as [|x s IH]; [done|].
  simpl. rewrite str_count_append, IH.
  destruct (Ascii.eqb_spec x old) as [->|Hx]; [lia|].
  simpl. by rewrite (proj2 (Ascii.eqb_neq x old)).
Qed.

Lemma str_count_replace_other (c old : ascii) (new s : string) :
  str_count c new = 0 → str_count c s = 0 →
  str_count c (str_replace old new s) = 0.
Proof.
  intros Hnew. induction s as [|x s IH]; [done|].
  simpl. intros Hs. rewrite str_count_append, IH by lia.
  destruct (Ascii.eqb x old); [lia|]. simpl. lia.
Qed.

Lemma build_tags_head (img : Image) : ∃ tag tags, build_tags img = tag :: tags.
Proof.
  destruct img as [self|self]; simpl.
  - unfold OsContainer.build_tags. simpl. eauto.
  - unfold LanguageStackContainer.build_tags. simpl.
    destruct (truthy_opt _); simpl; eauto.
Qed.

(** X8: every descriptor has a build name, and it contains neither a slash
    nor a colon. *)
Theorem build_name_plain (img : Image) :
  ∃ n, build_name img = Some n ∧
       str_count "/" n = 0 ∧ str_count ":" n = 0.
Proof.
  unfold build_name. destruct (build_tags_head img) as (tag & tags & ->).
  eexists. split; [reflexivity|]. split.
  - apply str_count_replace_other; [done|].
    by apply str_count_replace_old.
  - by apply str_count_replace_old.
Qed.

Lemma str_split_length (sep : ascii) (s : string) :
  length (str_split sep s) = S (str_count sep s).
Proof.
  induction s as [|x s IH]; [done|].
  simpl. destruct (Ascii.eqb x sep); simpl; [by rewrite IH|].
  by destruct (str_split sep s).
Qed.

Lemma str_split_none (sep : ascii) (s : string) :
  str_count sep s = 0 → str_split sep s = [s].
Proof.
  induction s as [|x s IH]; [done|].
  simpl. destruct (Ascii.eqb x sep); [done|].
  simpl. intros Hs. by rewrite IH.
Qed.

Lemma str_split_append (sep : ascii) (a b : string) :
  str_count sep a = 0 →
  str_split sep (a +:+ String sep b) = a :: str_split sep b.
Proof.
  induction a as [|x a IH].
  - intros _. rewrite append_empty_l. simpl. by rewrite Ascii.eqb_refl.
  - rewrite append_cons. simpl. destruct (Ascii.eqb x sep); [done|].
    simpl. intros Ha. by rewrite IH.
Qed.

Lemma length_append (a b : string) :
  String.length (a +:+ b) = String.length a + String.length b.
Proof.
  induction a as [|x a IH]; [done|]. rewrite append_cons. simpl. by rewrite IH.
Qed.

Lemma substring_all (s : string) : String.substring 0 (String.length s) s = s.
Proof. induction s as [|x s IH]; [done|]. simpl. by rewrite IH. Qed.

Lemma substring_append_r (a b : string) :
  String.substring (String.length a) (String.length b) (a +:+ b) = b.
Proof.
  induction a as [|x a IH]; [apply substring_all|].
  rewrite append_cons. simpl. exact IH.
Qed.

Lemma str_endswith_append (a b : string) : str_endswith (a +:+ b) b = true.
Proof.
  unfold str_endswith. rewrite length_append.
  replace (String.length a + String.length b - String.length b)
    with (String.length a) by lia.
  rewrite substring_append_r, String.eqb_refl, andb_true_r.
  apply Nat.leb_le. lia.
Qed.

(** ** The additional tags of a kiwi build *)

(** X9: for an OS container without additional names, whose registry prefix
    and name contain no colon, the additional tags are the version label,
    followed by [latest] when [is_latest] is set. *)
Theorem kiwi_additional_tags_os (self : OsContainer.t) :
  str_count ":" (BaseContainerImage._registry_prefix self) = 0 →
  str_count ":" (BaseContainerImage.name self) = 0 →
  BaseContainerImage.additional_names self = [] →
  kiwi_additional_tags (Os self) =
    Ok (Some (if BaseContainerImage.is_latest self
              then "%OS_VERSION_ID_SP%.%RELEASE%,latest"
              else "%OS_VERSION_ID_SP%.%RELEASE%")).
Proof.
  intros Hprefix Hname Hnames.
  unfold kiwi_additional_tags, build_tags, OsContainer.build_tags, base_of.
  rewrite Hnames. simpl tail.
  set (path := BaseContainerImage._registry_prefix self +:+ "/bci-"
                 +:+ BaseContainerImage.name self).
  assert (str_count ":" path = 0) as Hpath.
  { unfold path. rewrite !str_count_append, Hprefix, Hname. done. }
  assert (str_endswith path (BaseContainerImage.name self) = true) as Hends.
  { unfold path.
    replace (BaseContainerImage._registry_prefix self +:+ "/bci-"
               +:+ BaseContainerImage.name self)
      with ((BaseContainerImage._registry_prefix self +:+ "/bci-")
              +:+ BaseContainerImage.name self) by apply append_assoc.
    apply str_endswith_append. }
  assert (∀ tag, str_count ":" tag = 0 →
            str_split ":" (BaseContainerImage._registry_prefix self +:+ "/bci-"
                             +:+ BaseContainerImage.name self +:+ ":" +:+ tag)
            = [path; tag]) as Hsplit.
  { intros tag Htag.
    assert (BaseContainerImage._registry_prefix self +:+ "/bci-"
              +:+ BaseContainerImage.name self +:+ ":" +:+ tag
            = path +:+ String ":" tag) as ->.
    { unfold path. by rewrite !append_assoc. }
    rewrite str_split_append by exact Hpath.
    by rewrite str_split_none. }
  destruct (BaseContainerImage.is_latest self); simpl.
  - change (":latest") with (":" +:+ "latest").
    rewrite !Hsplit by done. simpl. rewrite Hends. done.
  - rewrite !Hsplit by done. simpl. rewrite Hends. done.
Qed.

Lemma kiwi_additional_tags_os_witness :
  kiwi_additional_tags (Os init_os_built)
    = Ok (Some "%OS_VERSION_ID_SP%.%RELEASE%").
Proof.
  exact (kiwi_additional_tags_os init_os_built eq_refl eq_refl eq_refl).
Defined.

Lemma extra_tags_too_many (name buildtag : string) (rest : list string) :
  (2 ≤ str_count ":" buildtag)%nat →
  extra_tags name (buildtag :: rest)
    = Raise (ValueError "too many values to unpack (expected 2)").
Proof.
  intros Hcount. pose proof (str_split_length ":" buildtag) as Hlen.
  simpl. destruct (str_split ":" buildtag) as [|a [|b [|c l]]];
    simpl in Hlen; try lia. done.
Qed.

Lemma build_tags_second (img : Image) :
  ∃ tag0 tag1 tags,
    build_tags img = tag0 :: tag1 :: tags ∧
    (S (str_count ":" (BaseContainerImage.name (base_of img)))
     ≤ str_count ":" tag1)%nat.
Proof.
  destruct img as [self|self]; cbn [build_tags base_of].
  - unfold OsContainer.build_tags. simpl. do 3 eexists.
    split; [reflexivity|]. rewrite !str_count_append. simpl. lia.
  - unfold LanguageStackContainer.build_tags. simpl.
    destruct (truthy_opt _); simpl; do 3 eexists; (split; [reflexivity|]);
      rewrite !str_count_append; unfold LanguageStackContainer.name;
      simpl; lia.
Qed.

(** X10: when the name of a descriptor contains a colon, its build tags cannot
    be unpacked into a path and a tag, and [kiwi_additional_tags] raises
    a [ValueError]. *)
Theorem kiwi_additional_tags_colon (img : Image) :
  (1 ≤ str_count ":" (BaseContainerImage.name (base_of img)))%nat →
  kiwi_additional_tags img
    = Raise (ValueError "too many values to unpack (expected 2)").
Proof.
  intros Hname. unfold kiwi_additional_tags.
  destruct (build_tags_second img) as (tag0 & tag1 & tags & -> & Hcount).
  cbn [tail]. rewrite extra_tags_too_many; [done|lia].
Qed.

Lemma kiwi_additional_tags_colon_witness :
  kiwi_additional_tags (Os colon_os)
    = Raise (ValueError "too many values to unpack (expected 2)").
Proof. apply (kiwi_additional_tags_colon (Os colon_os)). simpl. lia. Defined.

(** ** Packages of a kiwi build *)

Lemma pkg_filter_func_partition (l : list PackageEntry) :
  List.filter (pkg_filter_func DELETE) l
    ++ List.filter (pkg_filter_func BOOTSTRAP) l
    ++ List.filter (pkg_filter_func IMAGE) l
    ++ List.filter (pkg_filter_func UNINSTALL) l ≡ₚ l.
Proof.
  induction l as [|[s|[n []]] l IH]; [done|..]; simpl.
  - rewrite <- IH at 5. by rewrite <- !Permutation_middle.
  - by rewrite IH.
  - rewrite <- IH at 5. by rewrite <- !Permutation_middle.
  - rewrite <- IH at 5. by rewrite <- !Permutation_middle.
  - rewrite <- IH at 5. by rewrite <- !Permutation_middle.
Qed.

(** X11: the four package groups of a kiwi build hold every entry of the
    package list exactly once: together they are a permutation of it. *)
Theorem kiwi_package_groups_partition (self : BaseContainerImage.t) :
  concat (map fst (kiwi_package_groups self))
    ≡ₚ BaseContainerImage.package_list self.
Proof.
  unfold kiwi_package_groups, PKG_TYPES. simpl. rewrite app_nil_r.
  apply pkg_filter_func_partition.
Qed.

Lemma first_non_image_groups (l : list PackageEntry) :
  BaseContainerImage.first_non_image l = None ↔
  ∀ ty, ty ≠ IMAGE → List.filter (pkg_filter_func ty) l = [].
Proof.
  induction l as [|[s|[n ty']] l IH]; simpl.
  - done.
  - rewrite IH. split; intros H ty Hty; specialize (H ty Hty);
      by destruct ty.
  - destruct ty'; simpl.
    + split; [done|]. intros H. by specialize (H DELETE ltac:(done)).
    + split; [done|]. intros H. by specialize (H UNINSTALL ltac:(done)).
    + split; [done|]. intros H. by specialize (H BOOTSTRAP ltac:(done)).
    + rewrite IH. split; intros H ty Hty; specialize (H ty Hty);
        by destruct ty.
Qed.

(** X12: the package string of a Dockerfile build exists exactly when the
    delete, bootstrap and uninstall groups of the kiwi build are empty. *)
Theorem packages_iff_image_group (self : BaseContainerImage.t) :
  (∃ s, BaseContainerImage.packages self = Ok s) ↔
  ∀ ty, ty ≠ IMAGE →
        List.filter (pkg_filter_func ty)
          (BaseContainerImage.package_list self) = [].
Proof.
  rewrite <- first_non_image_groups. unfold BaseContainerImage.packages.
  destruct (BaseContainerImage.first_non_image _).
  - split; [by intros [? [=]]|done].
  - split; [done|eauto].
Qed.

Lemma packages_iff_image_group_witness :
  ∃ s, BaseContainerImage.packages image_only_os = Ok s.
Proof.
  apply (proj2 (packages_iff_image_group image_only_os)).
  intros ty Hty. by destruct ty.
Defined.

Lemma append_eq_empty (a b : string) : a +:+ b = "" → a = "" ∧ b = "".
Proof. destruct a; [by intros <-|discriminate]. Qed.

(** X13: the package elements of a kiwi build are empty exactly when the
    package list is empty. *)
Theorem kiwi_packages_empty_iff (self : BaseContainerImage.t) :
  kiwi_packages self = "" ↔ BaseContainerImage.package_list self = [].
Proof.
  split.
  - intros Hres.
    pose proof (pkg_filter_func_partition
                  (BaseContainerImage.package_list self)) as Hperm.
    unfold kiwi_packages, kiwi_package_groups, PKG_TYPES in *.
    simpl in Hres.
    destruct (List.filter (pkg_filter_func DELETE) _),
      (List.filter (pkg_filter_func BOOTSTRAP) _),
      (List.filter (pkg_filter_func IMAGE) _),
      (List.filter (pkg_filter_func UNINSTALL) _);
      try (by apply Permutation_nil in Hperm).
    all: exfalso; repeat (apply append_eq_empty in Hres as [Hres ?]);
      discriminate.
  - intros Hpkgs. unfold kiwi_packages, kiwi_package_groups.
    by rewrite Hpkgs.
Qed.

(** ** Trailing instructions *)

Lemma construct_base (img built : Image) :
  construct img = Ok built →
  BaseContainerImage.__post_init__ (base_of img) = Ok (base_of built).
Proof.
  destruct img as [self|self]; simpl.
  - unfold OsContainer.__post_init__.
    destruct (BaseContainerImage.__post_init__ self); [|discriminate].
    by intros [= <-].
  - unfold LanguageStackContainer.__post_init__.
    destruct (BaseContainerImage.__post_init__ _); [|discriminate].
    simpl. destruct (negb _); [discriminate|]. by intros [= <-].
Qed.

Lemma post_init_trailing (self built : BaseContainerImage.t) :
  BaseContainerImage.__post_init__ self = Ok built →
  ¬ (BaseContainerImage.config_sh_script built ≠ ""
     ∧ BaseContainerImage.custom_end built ≠ "").
Proof.
  intros Hb. apply post_init_idempotent in Hb.
  assert (∃ b, BaseContainerImage.__post_init__ built = Ok b) as Hvalid
    by eauto.
  by apply post_init_succeeds_iff in Hvalid as (_ & _ & Hboth).
Qed.

(** X14: for a constructed descriptor the [config.sh] of a kiwi build raises
    exactly when a [custom_end] is set, and the end of the Dockerfile is
    that [custom_end], or else the [config.sh] script behind
    [DOCKERFILE_RUN], or else empty. *)
Theorem constructed_trailing (year : string) (img built : Image) :
  construct img = Ok built →
  ((∃ e, config_sh year (base_of built) = Raise e) ↔
   BaseContainerImage.custom_end (base_of built) ≠ "") ∧
  (BaseContainerImage.custom_end (base_of built) = "" →
   BaseContainerImage.config_sh_script (base_of built) ≠ "" →
   dockerfile_custom_end (base_of built)
     = "RUN set -euo pipefail; "
         +:+ BaseContainerImage.config_sh_script (base_of built)) ∧
  (dockerfile_custom_end (base_of built) = "" ↔
   BaseContainerImage.custom_end (base_of built) = "" ∧
   BaseContainerImage.config_sh_script (base_of built) = "").
Proof.
  intros Hc. apply construct_base, post_init_trailing in Hc as Hboth.
  unfold config_sh, dockerfile_custom_end, DOCKERFILE_RUN.
  destruct (BaseContainerImage.custom_end (base_of built)) as [|c ce],
    (BaseContainerImage.config_sh_script (base_of built)) as [|d cs]; simpl.
  - split; [split; [by intros [? [=]]|done]|]. done.
  - split; [split; [by intros [? [=]]|done]|].
    split; [done|]. split; [discriminate|by intros [_ [=]]].
  - split; [split; [done|eauto]|].
    split; [done|]. split; [discriminate|by intros [[=] _]].
  - destruct Hboth. done.
Qed.

Lemma constructed_trailing_witness :
  ((∃ e, config_sh "2024" kiwi_custom_end_os = Raise e) ↔
   BaseContainerImage.custom_end kiwi_custom_end_os ≠ "") ∧
  (BaseContainerImage.custom_end kiwi_custom_end_os = "" →
   BaseContainerImage.config_sh_script kiwi_custom_end_os ≠ "" →
   dockerfile_custom_end kiwi_custom_end_os
     = "RUN set -euo pipefail; "
         +:+ BaseContainerImage.config_sh_script kiwi_custom_end_os) ∧
  (dockerfile_custom_end kiwi_custom_end_os = "" ↔
   BaseContainerImage.custom_end kiwi_custom_end_os = "" ∧
   BaseContainerImage.config_sh_script kiwi_custom_end_os = "").
Proof.
  exact (constructed_trailing "2024" (Os kiwi_custom_end_os)
           (Os kiwi_custom_end_os) eq_refl).
Defined.

(** ** The written files *)

Section write_files_properties.

Variables render_dockerfile render_kiwi render_service
  : Image → result string.
Variable capitalize : string → string.
Variables year stamp : string.
Variable resolve : string → string.

Lemma run_tasks_is_Some (tasks : list (string * string))
    (fs : gmap string string) (file : string) :
  is_Some (fs !! file) → is_Some (run_tasks resolve tasks fs !! file).
Proof.
  intros Hsome.
  destruct (decide (file ∈ resolve <$> tasks.*1)) as [Hin|Hout].
  - destruct (run_tasks_lookup_written resolve tasks fs file Hin)
      as (p & c & _ & _ & ->).
    by eexists.
  - by rewrite run_tasks_lookup_other.
Qed.

Lemma NoDup_resolve_agree (tasks : list (string * string))
    (p1 p2 c1 c2 : string) :
  NoDup (resolve <$> tasks.*1) →
  (p1, c1) ∈ tasks → (p2, c2) ∈ tasks → resolve p1 = resolve p2 →
  c1 = c2.
Proof.
  induction tasks as [|[p c] tasks IH]; intros Hnd H1 H2 Heq.
  { by apply elem_of_nil in H1. }
  rewrite !fmap_cons in Hnd. apply NoDup_cons in Hnd as [Hnotin Hnd].
  simpl in Hnotin.
  apply elem_of_cons in H1 as [H1|H1]; apply elem_of_cons in H2 as [H2|H2].
  - congruence.
  - injection H1 as -> ->. destruct Hnotin. rewrite Heq.
    apply list_elem_of_fmap_2. apply list_elem_of_fmap. by exists (p2, c2).
  - injection H2 as -> ->. destruct Hnotin. rewrite <- Heq.
    apply list_elem_of_fmap_2. apply list_elem_of_fmap. by exists (p1, c1).
  - by apply IH.
Qed.

(** When no two tasks write the same file, every task's contents are in
    the folder afterwards. *)
Lemma run_tasks_lookup_nodup (tasks : list (string * string))
    (fs : gmap string string) (path contents : string) :
  NoDup (resolve <$> tasks.*1) → (path, contents) ∈ tasks →
  run_tasks resolve tasks fs !! resolve path = Some contents.
Proof.
  intros Hnd Hin.
  destruct (run_tasks_lookup_written resolve tasks fs (resolve path))
    as (p & c & Hc & Hp & ->).
  { apply list_elem_of_fmap_2. apply list_elem_of_fmap.
    by exists (path, contents). }
  f_equal. by eapply NoDup_resolve_agree.
Qed.

(** Writing what the folder already holds changes nothing. *)
Lemma run_tasks_same (tasks : list (string * string))
    (fs : gmap string string) :
  (∀ path contents,
     (path, contents) ∈ tasks → fs !! resolve path = Some contents) →
  run_tasks resolve tasks fs = fs.
Proof.
  induction tasks as [|[p c] tasks IH]; intros Hsame; [done|].
  rewrite run_tasks_cons. simpl. rewrite insert_id.
  - apply IH. intros path contents Hin. apply Hsame. by right.
  - apply Hsame. by left.
Qed.

(** X15: every run of [write_files_to_folder], completed or not, changes
    no file but those that the paths of its tasks name; the tasks of a
    completed run are those of the destination paths of the names it
    returns. *)
Theorem write_files_frame (img : Image) (dest : string)
    (fs fs' : gmap string string) (r : result (list string))
    (file : string) :
  write_files_to_folder render_dockerfile render_kiwi render_service
    capitalize year stamp resolve img dest fs (fs', r) →
  (file ∉ resolve <$> (write_files_plan render_dockerfile render_kiwi
                         render_service capitalize year stamp resolve
                         img dest fs).1.*1 →
   fs' !! file = fs !! file) ∧
  (∀ files, r = Ok files →
     (write_files_plan render_dockerfile render_kiwi render_service
        capitalize year stamp resolve img dest fs).1.*1
     ≡ₚ os_path_join dest <$> files).
Proof.
  intros Hrun. split.
  - intros Hfile.
    apply write_files_to_folder_inv in Hrun as (written & -> & Hsub).
    apply run_tasks_lookup_other. intros Hin. apply Hfile.
    by apply (fmap_subseteq resolve _ _ Hsub).
  - intros files ->.
    inversion Hrun as [tasks files' sched Hplan Hperm| |]; subst.
    rewrite Hplan. simpl. by eapply write_files_plan_paths.
Qed.

(** X16: when the destination has no changelog, a completed
    [write_files_to_folder] lists the changelog and leaves one there. *)
Theorem write_files_creates_changes (img : Image) (dest : string)
    (fs fs' : gmap string string) (files : list string) :
  fs !! resolve (os_path_join dest (changes_file_name img)) = None →
  write_files_to_folder render_dockerfile render_kiwi render_service
    capitalize year stamp resolve img dest fs (fs', Ok files) →
  changes_file_name img ∈ files ∧
  is_Some (fs' !! resolve (os_path_join dest (changes_file_name img))).
Proof.
  intros Hnone Hrun.
  inversion Hrun as [tasks files' sched Hplan Hperm| |]; subst.
  pose proof (write_files_plan_paths _ _ _ _ _ _ _ _ _ _ _ _ Hplan)
    as Hpaths.
  apply write_files_plan_Ok in Hplan
    as (recipe & service & _ & _ & _ & ->).
  destruct (changes_tasks_cases capitalize stamp resolve img dest fs)
    as [[[? Hsome] _]|[_ [c Hc]]]; [congruence|].
  assert (changes_file_name img ∈
            "_service" :: recipe.*1
              ++ (changes_tasks capitalize stamp resolve img dest fs).*1
              ++ (BaseContainerImage.extra_files (base_of img)).*1) as Hin.
  { rewrite Hc. right. apply elem_of_app. right. by left. }
  split; [done|].
  destruct (run_tasks_lookup_written resolve sched fs
              (resolve (os_path_join dest (changes_file_name img))))
    as (p & contents & _ & _ & ->); [|by eexists].
  rewrite <- Hperm, Hpaths. by do 2 apply list_elem_of_fmap_2.
Qed.


(** X18: when the names that a completed run returns are those of pairwise
    distinct files, a second run of [write_files_to_folder] on the folder
    that the first has written either fails with the [OSError] of a write,
    or completes, leaves the folder as it is and returns the same names,
    but for the changelog when the first run created it. *)
Theorem write_files_idempotent (img : Image) (dest : string)
    (fs fs' fs'' : gmap string string) (files : list string)
    (again : result (list string)) :
  NoDup ((λ fname, resolve (os_path_join dest fname)) <$> files) →
  write_files_to_folder render_dockerfile render_kiwi render_service
    capitalize year stamp resolve img dest fs (fs', Ok files) →
  write_files_to_folder render_dockerfile render_kiwi render_service
    capitalize year stamp resolve img dest fs' (fs'', again) →
  (∃ files', again = Ok files' ∧ fs'' = fs' ∧ sublist files' files) ∨
  (∃ msg, again = Raise (OSError msg)).
Proof.
  intros Hnd Hrun Hagain.
  inversion Hrun as [tasks ? sched Hplan Hperm| |]; subst.
  change (NoDup ((resolve ∘ os_path_join dest) <$> files)) in Hnd.
  rewrite list_fmap_compose in Hnd.
  rewrite <- (write_files_plan_paths _ _ _ _ _ _ _ _ _ _ _ _ Hplan) in Hnd.
  apply write_files_plan_Ok in Hplan
    as (recipe & service & Hrecipe & Hservice & -> & ->).
  set (extra := BaseContainerImage.extra_files (base_of img)) in *.
  assert (is_Some (run_tasks resolve sched fs
                     !! resolve (os_path_join dest (changes_file_name img))))
    as Hexists.
  { destruct (changes_tasks_cases capitalize stamp resolve img dest fs)
      as [[Hsome _]|[_ [c Hc]]].
    - by apply run_tasks_is_Some.
    - destruct (run_tasks_lookup_written resolve sched fs
                  (resolve (os_path_join dest (changes_file_name img))))
        as (p & contents & _ & _ & ->); [|by eexists].
      rewrite <- Hperm, to_dest_fst. do 2 apply list_elem_of_fmap_2.
      rewrite Hc, !fmap_app. apply elem_of_app. right.
      apply elem_of_app. right. apply elem_of_app. left. by left. }
  assert (write_files_plan render_dockerfile render_kiwi render_service
            capitalize year stamp resolve img dest
            (run_tasks resolve sched fs)
          = (map (to_dest dest) (recipe ++ [("_service", service)] ++ extra),
             Ok ("_service" :: recipe.*1 ++ extra.*1))) as Hplan'.
  { unfold write_files_plan. rewrite Hrecipe, Hservice.
    unfold changes_tasks, os_path_exists. by rewrite bool_decide_eq_true_2. }
  inversion Hagain as [tasks' files' sched' Hplan'' Hperm'
                      |tasks' files' partial msg Hplan'' Hsub
                      |tasks' e partial Hplan'' Hsub]; subst.
  - left. rewrite Hplan' in Hplan''. injection Hplan'' as <- <-.
    eexists. split; [done|]. split.
    + apply run_tasks_same. intros path contents Hin.
      apply run_tasks_lookup_nodup; [by rewrite <- Hperm|].
      rewrite <- Hperm. rewrite <- Hperm' in Hin.
      apply list_elem_of_In, in_map_iff in Hin as (task & Htask & Hin).
      apply list_elem_of_In. rewrite <- Htask. apply in_map.
      apply list_elem_of_In. apply list_elem_of_In in Hin.
      apply elem_of_app in Hin as [Hin|Hin]; [by apply elem_of_app; left|].
      apply elem_of_app. right.
      apply elem_of_cons in Hin as [->|Hin]; [by left|].
      right. apply elem_of_app. by right.
    + apply sublist_skip, sublist_app; [done|].
      by apply sublist_inserts_l.
  - right. by exists msg.
  - congruence.
Qed.

End write_files_properties.

Lemma init_os_built_outcome :
  write_files_to_folder fixed_dockerfile fixed_kiwi fixed_service
    capitalize_ascii "2024" "Mon Jan 01 00:00:00 UTC 2024" same_file
    (Os init_os_built) "out" folder_before
    (folder_kept, Ok ["_service"; "Dockerfile"]).
Proof.
  assert (folder_kept = run_tasks same_file
            [ ("out/Dockerfile", "FROM base" +:+ nl);
              ("out/_service", "<services/>") ] folder_before) as ->.
  { vm_compute. reflexivity. }
  eapply write_files_done; reflexivity.
Qed.

Lemma init_os_built_outcome_again :
  write_files_to_folder fixed_dockerfile fixed_kiwi fixed_service
    capitalize_ascii "2024" "Mon Jan 01 00:00:00 UTC 2024" same_file
    (Os init_os_built) "out" folder_kept
    (folder_kept, Ok ["_service"; "Dockerfile"]).
Proof.
  assert (folder_kept = run_tasks same_file
            [ ("out/Dockerfile", "FROM base" +:+ nl);
              ("out/_service", "<services/>") ] folder_kept) as Heq.
  { vm_compute. reflexivity. }
  rewrite Heq at 2. eapply write_files_done; reflexivity.
Qed.

Lemma init_os_built_outcome_created :
  write_files_to_folder fixed_dockerfile fixed_kiwi fixed_service
    capitalize_ascii "2024" "Mon Jan 01 00:00:00 UTC 2024" same_file
    (Os init_os_built) "out" ∅
    (folder_created,
     Ok ["_service"; "Dockerfile"; "init-image.changes"]).
Proof. eapply write_files_done; reflexivity. Qed.

Lemma init_os_built_files_NoDup :
  NoDup ((λ fname, same_file (os_path_join "out" fname))
           <$> ["_service"; "Dockerfile"]).
Proof. apply (bool_decide_unpack _). vm_compute. exact I. Qed.

Lemma write_files_frame_witness :
  folder_kept !! "out/README" = folder_before !! "out/README".
Proof.
  apply (write_files_frame fixed_dockerfile fixed_kiwi fixed_service
           capitalize_ascii "2024" "Mon Jan 01 00:00:00 UTC 2024" same_file
           (Os init_os_built) "out" folder_before folder_kept
           (Ok ["_service"; "Dockerfile"]) "out/README").
  - exact init_os_built_outcome.
  - apply (bool_decide_unpack _). vm_compute. exact I.
Defined.

Lemma write_files_creates_changes_witness :
  changes_file_name (Os init_os_built)
    ∈ ["_service"; "Dockerfile"; "init-image.changes"] ∧
  is_Some (folder_created
             !! same_file
                  (os_path_join "out" (changes_file_name (Os init_os_built)))).
Proof.
  apply (write_files_creates_changes fixed_dockerfile fixed_kiwi
           fixed_service capitalize_ascii "2024"
           "Mon Jan 01 00:00:00 UTC 2024" same_file
           (Os init_os_built) "out" ∅).
  - reflexivity.
  - exact init_os_built_outcome_created.
Defined.


Lemma write_files_idempotent_witness :
  (∃ files',
     Ok ["_service"; "Dockerfile"] = Ok files' ∧ folder_kept = folder_kept ∧
     sublist files' ["_service"; "Dockerfile"]) ∨
  (∃ msg, Ok ["_service"; "Dockerfile"] = Raise (OSError msg)).
Proof.
  apply (write_files_idempotent fixed_dockerfile fixed_kiwi fixed_service
           capitalize_ascii "2024" "Mon Jan 01 00:00:00 UTC 2024" same_file
           (Os init_os_built) "out" folder_before).
  - exact init_os_built_files_NoDup.
  - exact init_os_built_outcome.
  - exact init_os_built_outcome_again.
Defined.

(** ** The catalog key *)

Lemma list_ascii_of_string_append (a b : string) :
  list_ascii_of_string (a +:+ b)
    = list_ascii_of_string a ++ list_ascii_of_string b.
Proof.
  induction a as [|x a IH]; [done|]. rewrite append_cons. simpl. by rewrite IH.
Qed.

Lemma append_inj_r (a b c : string) : a +:+ c = b +:+ c → a = b.
Proof.
  intros Heq. apply (f_equal list_ascii_of_string) in Heq.
  rewrite !list_ascii_of_string_append in Heq.
  apply app_inv_tail in Heq.
  rewrite <- (string_of_list_ascii_of_string a),
    <- (string_of_list_ascii_of_string b).
  by rewrite Heq.
Qed.

(** X19: OS containers with the same catalog key have the same name and the
    same OS version. *)
Theorem catalog_key_os_injective (self1 self2 : OsContainer.t) :
  catalog_key (Os self1) = catalog_key (Os self2) →
  BaseContainerImage.name self1 = BaseContainerImage.name self2 ∧
  BaseContainerImage.os_version self1 = BaseContainerImage.os_version self2.
Proof.
  unfold catalog_key, uid, base_of. intros Hkey.
  assert (BaseContainerImage.os_version self1
          = BaseContainerImage.os_version self2) as Hos.
  { assert (∀ n os, last_char (n +:+ "-" +:+ str_lower (pretty_print os))
                    = last_char (str_lower (pretty_print os))) as Hlast.
    { intros n os.
      rewrite last_char_append; [apply last_char_append|]; by destruct os. }
    apply (f_equal last_char) in Hkey. rewrite !Hlast in Hkey.
    by destruct (BaseContainerImage.os_version self1),
      (BaseContainerImage.os_version self2). }
  split; [|done]. rewrite Hos in Hkey. by apply append_inj_r in Hkey.
Qed.

Lemma catalog_key_os_injective_witness :
  BaseContainerImage.name init_os = BaseContainerImage.name init_os_built ∧
  BaseContainerImage.os_version init_os
    = BaseContainerImage.os_version init_os_built.
Proof. exact (catalog_key_os_injective init_os init_os_built eq_refl). Defined.

(** ** Published names *)

Lemma elem_of_flat_map {A B} (f : A → list B) (l : list A) (x : A) (y : B) :
  x ∈ l → y ∈ f x → y ∈ flat_map f l.
Proof.
  intros Hx Hy. apply list_elem_of_In, in_flat_map.
  exists x. by rewrite <- !list_elem_of_In.
Qed.

(** X20: every publishing name of a stack, the primary name and each additional
    name, gets the tag of the version label, its release-suffixed tag and,
    when [is_latest] is set, the tag [latest]. *)
Theorem build_tags_publishing_names (self : LanguageStackContainer.t)
    (name : string) :
  name ∈ LanguageStackContainer.name self
           :: BaseContainerImage.additional_names
                (LanguageStackContainer.base self) →
  LanguageStackContainer._registry_prefix self +:+ "/" +:+ name +:+ ":"
    +:+ LanguageStackContainer.version_label self
    ∈ build_tags (Stack self) ∧
  LanguageStackContainer._registry_prefix self +:+ "/" +:+ name +:+ ":"
    +:+ LanguageStackContainer.version_label self +:+ "-"
    +:+ LanguageStackContainer._release_suffix self
    ∈ build_tags (Stack self) ∧
  (BaseContainerImage.is_latest (LanguageStackContainer.base self) = true →
   LanguageStackContainer._registry_prefix self +:+ "/" +:+ name
     +:+ ":latest" ∈ build_tags (Stack self)).
Proof.
  intros Hname. cbn [build_tags]. unfold LanguageStackContainer.build_tags.
  split; [|split; [|intros Hlatest]].
  all: apply (elem_of_flat_map _ _ name); [exact Hname|].
  - apply elem_of_app. left.
    apply (elem_of_flat_map _ _ (LanguageStackContainer.version_label self)).
    + apply elem_of_app. left. destruct (truthy_opt _); [by right; left|].
      by left.
    + by left.
  - apply elem_of_app. left.
    apply (elem_of_flat_map _ _ (LanguageStackContainer.version_label self)).
    + apply elem_of_app. left. destruct (truthy_opt _); [by right; left|].
      by left.
    + right. by left.
  - apply elem_of_app. right. rewrite Hlatest. by left.
Qed.

Lemma build_tags_publishing_names_witness :
  "bci/demo:3.9" ∈ build_tags (Stack demo_stack) ∧
  "bci/demo:3.9-%RELEASE%" ∈ build_tags (Stack demo_stack) ∧
  (BaseContainerImage.is_latest demo_base = true →
   "bci/demo:latest" ∈ build_tags (Stack demo_stack)).
Proof.
  apply (build_tags_publishing_names demo_stack "demo"). by left.
Defined.

(** ** Where the files go and when writing fails *)

Lemma prefix_append (a b : string) : String.prefix a (a +:+ b) = true.
Proof.
  induction a as [|x a IH]; [by destruct b|].
  rewrite append_cons. simpl. by destruct (ascii_dec x x).
Qed.

Lemma os_path_join_prefix (dest fname : string) :
  String.prefix "/" fname = false →
  String.prefix dest (os_path_join dest fname) = true.
Proof.
  intros Hrel. unfold os_path_join. rewrite Hrel.
  destruct dest as [|c dest]; [by destruct fname|]. simpl negb. cbv iota.
  case_bool_decide; apply prefix_append.
Qed.

Lemma prefix_cons (x y : ascii) (a b : string) :
  String.prefix (String x a) (String y b)
    = if ascii_dec x y then String.prefix a b else false.
Proof. reflexivity. Qed.

Lemma prefix_slash_append (a b : string) :
  String.prefix "/" a = false → String.prefix "/" b = false →
  String.prefix "/" (a +:+ b) = false.
Proof.
  destruct a as [|x a]; [by intros _ ?|].
  rewrite append_cons, !prefix_cons.
  destruct (ascii_dec "/"%char x); [|done]. destruct a; discriminate.
Qed.

Section write_files_failures.

Variables render_dockerfile render_kiwi render_service
  : Image → result string.
Variable capitalize : string → string.
Variables year stamp : string.
Variable resolve : string → string.

Lemma build_description_tasks_relative (img : Image) (fname : string) :
  String.prefix "/" (BaseContainerImage.package_name (base_of img)) = false →
  fname ∈ (build_description_tasks render_dockerfile render_kiwi year
             img).1.*1 →
  String.prefix "/" fname = false.
Proof.
  intros Hpn. unfold build_description_tasks.
  destruct (BaseContainerImage.build_recipe_type _) as [[]|]; simpl.
  - destruct (render_dockerfile img) as [text|]; simpl;
      [|by intros ?%elem_of_nil].
    destruct (last_char text); simpl; [|by intros ?%elem_of_nil].
    by intros ->%list_elem_of_singleton.
  - destruct (render_kiwi img) as [text|]; simpl;
      [|by intros ?%elem_of_nil].
    destruct (config_sh year _) as [cfg|]; simpl.
    + intros [->|Hin]%elem_of_cons; [by apply prefix_slash_append|].
      destruct (truthy cfg); simpl in Hin.
      * by apply list_elem_of_singleton in Hin as ->.
      * by apply elem_of_nil in Hin.
    + intros ->%list_elem_of_singleton. by apply prefix_slash_append.
  - by intros ?%elem_of_nil.
Qed.

(** Every path of a created task is a relative name joined to the
    destination. *)
Lemma write_files_plan_relative (img : Image) (dest : string)
    (fs : gmap string string) (path : string) :
  String.prefix "/" (BaseContainerImage.package_name (base_of img)) = false →
  (∀ f, f ∈ (BaseContainerImage.extra_files (base_of img)).*1 →
        String.prefix "/" f = false) →
  path ∈ (write_files_plan render_dockerfile render_kiwi render_service
            capitalize year stamp resolve img dest fs).1.*1 →
  ∃ fname, path = os_path_join dest fname ∧ String.prefix "/" fname = false.
Proof.
  intros Hpn Hextra Hin.
  destruct (write_files_plan _ _ _ _ _ _ _ _ _ _) as [tasks [files|e]]
    eqn:Hplan; simpl in Hin.
  - apply write_files_plan_Ok in Hplan
      as (recipe & service & Hrecipe & _ & -> & _).
    rewrite to_dest_fst in Hin.
    apply list_elem_of_fmap in Hin as (fname & -> & Hin).
    exists fname. split; [done|].
    rewrite !fmap_app in Hin.
    apply elem_of_app in Hin as [Hin|Hin].
    { apply (build_description_tasks_relative img); [done|].
      by rewrite Hrecipe. }
    apply elem_of_app in Hin as [Hin|Hin].
    { by apply list_elem_of_singleton in Hin as ->. }
    apply elem_of_app in Hin as [Hin|Hin]; [|by apply Hextra].
    destruct (changes_tasks_cases capitalize stamp resolve img dest fs)
      as [[_ Hc]|[_ [c Hc]]]; rewrite Hc in Hin.
    + by apply elem_of_nil in Hin.
    + apply list_elem_of_singleton in Hin as ->.
      by apply prefix_slash_append.
  - apply write_files_plan_Raise in Hplan as [-> _].
    rewrite to_dest_fst in Hin.
    apply list_elem_of_fmap in Hin as (fname & -> & Hin).
    exists fname. split; [done|].
    by apply (build_description_tasks_relative img).
Qed.

(** X21: when neither the package name nor the name of an extra file
    starts with a slash, every file that a run of [write_files_to_folder]
    changes is named by a path that starts with the destination. *)
Theorem write_files_within_dest (img : Image) (dest : string)
    (fs fs' : gmap string string) (r : result (list string))
    (file : string) :
  String.prefix "/" (BaseContainerImage.package_name (base_of img)) = false →
  (∀ f, f ∈ (BaseContainerImage.extra_files (base_of img)).*1 →
        String.prefix "/" f = false) →
  write_files_to_folder render_dockerfile render_kiwi render_service
    capitalize year stamp resolve img dest fs (fs', r) →
  fs' !! file ≠ fs !! file →
  ∃ path, resolve path = file ∧ String.prefix dest path = true.
Proof.
  intros Hpn Hextra Hrun Hchanged.
  apply write_files_to_folder_inv in Hrun as (written & -> & Hsub).
  destruct (decide (file ∈ resolve <$> written.*1)) as [Hin|Hout].
  - apply list_elem_of_fmap in Hin as (path & -> & Hin).
    exists path. split; [done|].
    apply Hsub in Hin.
    destruct (write_files_plan_relative img dest fs path Hpn Hextra Hin)
      as (fname & -> & Hrel).
    by apply os_path_join_prefix.
  - destruct Hchanged. by apply run_tasks_lookup_other.
Qed.

(** X22: for a constructed descriptor whose templates render, the
    Dockerfile not to the empty text: a kiwi build with a [custom_end]
    makes every run of [write_files_to_folder] raise the [ValueError] of
    [config_sh]; every other run either completes or raises the [OSError]
    of a write. *)
Theorem write_files_raises (img built : Image) (dest : string)
    (fs fs' : gmap string string) (r : result (list string))
    (dockerfile kiwi service : string) :
  construct img = Ok built →
  render_dockerfile built = Ok dockerfile → dockerfile ≠ "" →
  render_kiwi built = Ok kiwi →
  render_service built = Ok service →
  write_files_to_folder render_dockerfile render_kiwi render_service
    capitalize year stamp resolve built dest fs (fs', r) →
  (BaseContainerImage.build_recipe_type (base_of built) = Some KIWI ∧
   BaseContainerImage.custom_end (base_of built) ≠ "" ∧
   r = Raise (ValueError
         "This image cannot be build as a kiwi image, it has a `custom_end` set.")) ∨
  (¬ (BaseContainerImage.build_recipe_type (base_of built) = Some KIWI ∧
      BaseContainerImage.custom_end (base_of built) ≠ "") ∧
   ((∃ files, r = Ok files) ∨ (∃ msg, r = Raise (OSError msg)))).
Proof.
  intros Hc Hd Hne Hk Hs Hrun.
  apply construct_base in Hc.
  pose proof (post_init_trailing _ _ Hc) as Hboth.
  apply post_init_inv in Hc as (_ & _ & Htype & _).
  assert ((BaseContainerImage.build_recipe_type (base_of built) = Some KIWI ∧
           BaseContainerImage.custom_end (base_of built) ≠ "" ∧
           ∃ tasks,
             write_files_plan render_dockerfile render_kiwi render_service
               capitalize year stamp resolve built dest fs
             = (tasks, Raise (ValueError
                  "This image cannot be build as a kiwi image, it has a `custom_end` set.")))
          ∨ (¬ (BaseContainerImage.build_recipe_type (base_of built)
                  = Some KIWI ∧
                BaseContainerImage.custom_end (base_of built) ≠ "") ∧
             ∃ tasks files,
               write_files_plan render_dockerfile render_kiwi render_service
                 capitalize year stamp resolve built dest fs
               = (tasks, Ok files))) as Hplan.
  { unfold write_files_plan, build_description_tasks. rewrite Htype.
    destruct (settled_build_recipe_type _).
    - right. split; [by intros [[=] _]|]. rewrite Hd, Hs.
      destruct (last_char dockerfile) eqn:Hlast;
        [|by apply last_char_None in Hlast].
      by do 2 eexists.
    - rewrite Hk. unfold config_sh.
      destruct (BaseContainerImage.custom_end (base_of built)) as [|c ce],
        (BaseContainerImage.config_sh_script (base_of built)) as [|d cs];
        simpl.
      + right. split; [by intros [_ ?]|]. rewrite Hs. by do 2 eexists.
      + right. split; [by intros [_ ?]|]. rewrite Hs. by do 2 eexists.
      + left. split; [done|]. split; [done|]. by eexists.
      + destruct Hboth. done. }
  destruct Hplan as [(Hkiwi & Hend & tasks & Hplan)
                    |(Hnot & tasks & files & Hplan)].
  - left. split; [done|]. split; [done|].
    inversion Hrun; subst; congruence.
  - right. split; [done|].
    inversion Hrun; subst; [left; by eexists|right; by eexists|congruence].
Qed.

End write_files_failures.

Lemma write_files_within_dest_witness :
  ∃ path, same_file path = "out/Dockerfile" ∧ String.prefix "out" path = true.
Proof.
  apply (write_files_within_dest fixed_dockerfile fixed_kiwi fixed_service
           capitalize_ascii "2024" "Mon Jan 01 00:00:00 UTC 2024" same_file
           (Os init_os_built) "out" folder_before folder_kept
           (Ok ["_service"; "Dockerfile"])).
  - reflexivity.
  - intros f Hf. by apply elem_of_nil in Hf.
  - exact init_os_built_outcome.
  - discriminate.
Defined.

Lemma write_files_raises_witness :
  BaseContainerImage.build_recipe_type kiwi_custom_end_os = Some KIWI ∧
  BaseContainerImage.custom_end kiwi_custom_end_os ≠ "".
Proof.
  destruct (write_files_raises fixed_dockerfile fixed_kiwi fixed_service
              capitalize_ascii "2024" "Mon Jan 01 00:00:00 UTC 2024"
              same_file (Os kiwi_custom_end_os) (Os kiwi_custom_end_os)
              "out" folder_before folder_before _
              "FROM base" "<image/>" "<services/>"
              eq_refl eq_refl ltac:(discriminate) eq_refl eq_refl
              (proj1 (proj2 write_files_kiwi_custom_end_raises)))
    as [(Hkiwi & Hend & _)|[Hnot _]]; [by split|].
  destruct Hnot. split; [reflexivity|discriminate].
Defined.
